(** * Verification of the SMS game handler (src/handler.py)

    A shallow embedding of the narrative script ([GAME_DATA],
    [RANDOM_EVENTS]), the player record, the two store helpers
    ([get_user_state], [save_user_state]), the outcome resolver
    ([apply_outcome_and_get_message]) and the turn orchestrator
    ([inbound_sms_handler]), followed by the properties proved about them.

    Modelling conventions.
    - A Python [str] is a [string] (a sequence of bytes).  [strip] and
      [upper] are [str.strip] and [str.upper] on ASCII texts; they leave
      every other byte alone, which Python does not.  A property that
      classifies a message by its normalised text is therefore stated for
      [inbound_sms_handler_on], the handler with the normalisation as a
      parameter, and holds whatever the two methods do with a text.
    - A Python [int] is a [Z]; a Python [float] is an IEEE-754 binary64 value
      of [spec_float], computed with the operations of [SpecFloat].
    - A raised exception is the [None] of an [option] result.
    - The users table is a key-value map from phone number to stored item;
      the messaging gateway is an outbox.  In the turns of the handler a
      write is taken to be accepted; [save_user_state_checked] is the
      helper with the [except] branch of a refused write.  Failures of the
      remote services themselves (network, throttling) are not modelled. *)

From Stdlib Require Import ZArith String Ascii List Bool Lia.
From Stdlib Require Import Floats.SpecFloat.
From stdpp Require Import base option gmap strings pretty.
Import ListNotations.

Open Scope Z_scope.

(** ** Strings *)

Definition LF : string := String "010"%char EmptyString.

(** [str.isspace] on the ASCII range: TAB..CR, FS..US and the blank. *)
Definition is_space (c : ascii) : bool :=
  let n := N_of_ascii c in
  ((9 <=? n) && (n <=? 13) || (28 <=? n) && (n <=? 32))%N.

(** One character of [str.upper] / [str.lower] on the ASCII range. *)
Definition upper_char (c : ascii) : ascii :=
  let n := N_of_ascii c in
  if ((97 <=? n) && (n <=? 122))%N then ascii_of_N (n - 32) else c.


Fixpoint str_map (f : ascii -> ascii) (s : string) : string :=
  match s with
  | EmptyString => EmptyString
  | String c s' => String (f c) (str_map f s')
  end.

Definition upper (s : string) : string := str_map upper_char s.

Fixpoint lstrip (s : string) : string :=
  match s with
  | EmptyString => EmptyString
  | String c s' => if is_space c then lstrip s' else s
  end.

Fixpoint rstrip (s : string) : string :=
  match s with
  | EmptyString => EmptyString
  | String c s' =>
      match rstrip s' with
      | EmptyString => if is_space c then EmptyString else String c EmptyString
      | r => String c r
      end
  end.

(** [s.strip()] *)
Definition strip (s : string) : string := rstrip (lstrip s).

(** [s.replace(c, '')] for a one-character pattern. *)
Fixpoint remove_char (c : ascii) (s : string) : string :=
  match s with
  | EmptyString => EmptyString
  | String d s' =>
      if Ascii.eqb c d then remove_char c s' else String d (remove_char c s')
  end.

(** [sub in s] on strings. *)
Fixpoint str_contains (sub s : string) : bool :=
  String.prefix sub s ||
  match s with
  | EmptyString => false
  | String _ s' => str_contains sub s'
  end.

(** The reply [s] contains [sub] somewhere. *)
Definition contains (sub s : string) : Prop :=
  exists pre post : string, s = pre +:+ sub +:+ post.

(** Python truthiness of a string. *)
Definition nonempty (s : string) : bool := negb (String.eqb s "").

(** [str(n)] for an integer, as the f-strings of the source print it. *)
Definition str_of_int (n : Z) : string := pretty n.

(** ** Numbers *)

(** Binary64, the format of a Python [float]. *)
Definition prec64 : Z := 53.
Definition emax64 : Z := 1024.

(** The float an [int] operand is converted to before a mixed product:
    round to nearest even, [OverflowError] when out of range. *)
Definition float_of_int (n : Z) : option spec_float :=
  match binary_normalize prec64 emax64 n 0 false with
  | S754_infinity _ => None
  | f => Some f
  end.

(** [int(x)] on a float: the fraction is dropped (rounding toward zero);
    infinities and NaN raise. *)
Definition int_of_float (x : spec_float) : option Z :=
  match x with
  | S754_zero _ => Some 0
  | S754_finite s m e => Some (cond_Zopp s (Z.shiftl (Zpos m) e))
  | S754_infinity _ | S754_nan => None
  end.

(** The float [n * p] for an int [n] and a float [p]. *)
Definition float_product (n : Z) (p : spec_float) : option spec_float :=
  match float_of_int n with
  | Some f => Some (SFmul prec64 emax64 f p)
  | None => None
  end.

(** [int(n * p)] *)
Definition int_of_product (n : Z) (p : spec_float) : option Z :=
  match float_product n p with
  | Some x => int_of_float x
  | None => None
  end.

(** A [Decimal] as the store hands numbers back: coefficient and
    power-of-ten exponent. *)
Record Decimal := mkDecimal { dec_coeff : Z; dec_exp : Z }.

(** The number stored for a Python [int], once the store has accepted the
    write; what it accepts is [store_accepts]. *)
Definition Decimal_of_int (n : Z) : Decimal := mkDecimal n 0.

(** [int(d)] on a [Decimal]: truncation toward zero. *)
Definition int_of_Decimal (d : Decimal) : Z :=
  if 0 <=? dec_exp d then dec_coeff d * 10 ^ dec_exp d
  else Z.quot (dec_coeff d) (10 ^ (- dec_exp d)).

(** ** The narrative script *)

(** The value under an effect's ["net_worth"] key: a number or ["die"]. *)
Inductive net_worth_effect :=
  | Delta (d : Z)
  | Die.

(** An effect dictionary; a field is [None] when its key is absent. *)
Record effect := mkEffect {
  eff_net_worth : option net_worth_effect;
  eff_net_worth_percentage : option spec_float;
  eff_random_event : option string
}.

Record outcome := mkOutcome {
  out_effect : effect;
  out_message : string;
  out_next_state : option string      (* [outcome.get("next_state")] *)
}.

(** A random event.  [ev_next_state] is [None] when the key is absent and
    [Some None] when it is present with the value [None]. *)
Record random_event := mkEvent {
  ev_message : string;
  ev_effect : effect;
  ev_next_state : option (option string)
}.

(** A prompt dictionary of [GAME_DATA]. *)
Record prompt := mkPrompt {
  p_message : string;
  p_options : list string;
  p_next_state : option string;
  p_outcomes : option (list (string * outcome))
}.

(** A value of [GAME_DATA]: a prompt dictionary or a plain string. *)
Inductive node :=
  | Prompt (p : prompt)
  | Terminal (s : string).

(** [d.get(k)] on a dictionary literal. *)
Fixpoint dict_get {A : Type} (d : list (string * A)) (k : string) : option A :=
  match d with
  | [] => None
  | (k', v) :: d' => if String.eqb k k' then Some v else dict_get d' k
  end.

Definition add (d : Z) : effect := mkEffect (Some (Delta d)) None None.
Definition add_event (d : Z) (ev : string) : effect :=
  mkEffect (Some (Delta d)) None (Some ev).

(** The float literal [-0.5]. *)
Definition minus_half : spec_float := S754_finite true 4503599627370496 (-53).

Definition hustle_intro : prompt :=
  mkPrompt
    "Welcome to Choose Your Hustle! Reach KES 10,000 net worth. To start, what's your first move?"
    [ "1. Look for a formal job.";
      "2. Start a small side hustle.";
      "3. Try your luck with a quick crypto trade." ]
    (Some "hustle_q1")
    None.

Definition hustle_q1 : prompt :=
  mkPrompt
    "A potential investor hears about your idea and wants to invest. He offers a very high amount because he is very intrigued. He is impatient and wants you to go all in or leave it."
    [ "1. Take it, no questions asked (Big risk, big reward).";
      "2. Ask for a meeting to review terms (Cautious).";
      "3. Reject, too good to be true (Safe)." ]
    None
    (Some
       [ ("1", mkOutcome (add 5000)
                 "You blindly took the deal! It paid off big time! (+KES 5000)"
                 (Some "hustle_q2"));
         ("2", mkOutcome (add (-1000))
                 "He got impatient and pulled out. You wasted time. (-KES 1000)"
                 (Some "hustle_q2"));
         ("3", mkOutcome (add 0)
                 "You dodged a bullet, but also missed an opportunity. (No change)"
                 (Some "hustle_q2")) ]).

Definition hustle_q2 : prompt :=
  mkPrompt
    "Your cousin asks to borrow KES 2000 for an emergency. They promise to pay back next week."
    [ "1. Lend them the money (Goodwill).";
      "2. Lend half, keep half (Cautious).";
      "3. Say no, you need the money (Self-preservation)." ]
    None
    (Some
       [ ("1", mkOutcome (add_event (-2000) "ghosted")
                 "You lent the money. Fingers crossed!" None);
         ("2", mkOutcome (add (-1000))
                 "You lent half. Better safe than sorry." (Some "hustle_q3"));
         ("3", mkOutcome (add 0)
                 "You kept your funds. Wise choice." (Some "hustle_q3")) ]).

Definition hustle_q3 : prompt :=
  mkPrompt
    "A new tech trend emerges: AI-powered personalized fashion. Do you pivot?"
    [ "1. Go all-in, invest heavily in AI tools (High risk, potential high reward).";
      "2. Research and learn first, make small changes (Calculated risk).";
      "3. Stick to your original plan, avoid fads (Conservative)." ]
    None
    (Some
       [ ("1", mkOutcome (add_event 3000 "ai_boom_bust")
                 "You bet big on AI fashion!" None);
         ("2", mkOutcome (add 1000)
                 "Your careful pivot yields steady growth. (+KES 1000)"
                 (Some "hustle_q4"));
         ("3", mkOutcome (add (-500))
                 "You missed out on new opportunities. (-KES 500)"
                 (Some "hustle_q4")) ]).

Definition hustle_q4 : prompt :=
  mkPrompt
    "Your biggest competitor offers to buy your side hustle for KES 8,000. Do you sell or keep building?"
    [ "1. Sell now, take the guaranteed money.";
      "2. Reject, you believe it's worth more.";
      "3. Counter-offer for KES 12,000." ]
    None
    (Some
       [ ("1", mkOutcome (add 8000)
                 "You sold your hustle! A solid exit. (+KES 8000)"
                 (Some "check_win"));
         ("2", mkOutcome (add_event (-1500) "market_crash")
                 "You hold on, hoping for more. (-KES 1500)" None);
         ("3", mkOutcome (add_event 0 "negotiation_fail")
                 "Your counter-offer was too high. They walked away." None) ]).

Definition death_scam : string :=
  "You joined a WhatsApp forex group. Now you’re broke and blocked. 💀 Reply RESTART to start again.".
Definition death_starved : string :=
  "You thought wild berries were a meal. They were poison. You now rest with the frogs. 💀 Reply RESTART to start again.".
Definition win_hustle : string :=
  "Congratulations! You hustled your way to KES 10,000! You're a true urban survivor! 🎉 Reply RESTART to play again.".
Definition default_death : string :=
  "You made a fatal error. Your hustle ended here. 💀 Reply RESTART to start again.".

Definition GAME_DATA : list (string * node) :=
  [ ("hustle_intro", Prompt hustle_intro);
    ("hustle_q1", Prompt hustle_q1);
    ("hustle_q2", Prompt hustle_q2);
    ("hustle_q3", Prompt hustle_q3);
    ("hustle_q4", Prompt hustle_q4);
    ("death_scam", Terminal death_scam);
    ("death_starved", Terminal death_starved);
    ("win_hustle", Terminal win_hustle);
    ("default_death", Terminal default_death) ].

Definition RANDOM_EVENTS : list (string * random_event) :=
  [ ("ghosted",
     mkEvent
       "Oh no! Your cousin ghosted you! That KES 2000 is gone forever. (-KES 2000)"
       (add (-2000)) (Some (Some "hustle_q3")));
    ("ponzi",
     mkEvent
       "You invested in a 'guaranteed' crypto scheme. It was a Ponzi. You lost everything! (-ALL)"
       (mkEffect (Some Die) None None) (Some None));
    ("ai_boom_bust",
     mkEvent
       "The AI bubble burst! You lost half your net worth but learned a valuable lesson. (-HALF)"
       (mkEffect None (Some minus_half) None) (Some (Some "hustle_q4")));
    ("market_crash",
     mkEvent
       "The market crashed right after you rejected the offer! Your hustle's value plummeted. (-ALL)"
       (mkEffect (Some Die) None None) (Some None));
    ("negotiation_fail",
     mkEvent
       "Your reputation for greed spread. No one wants to do business with you. (-1000)"
       (add (-1000)) (Some (Some "hustle_q4"))) ].

Definition HUSTLE_GOAL : Z := 10000.

(** ** The player record *)

Record user_state := mkState {
  phoneNumber : string;
  game : option string;
  status : string;
  net_worth : Z;
  days_survived : Z;
  current_q : option string
}.

Definition set_game (g : option string) (u : user_state) : user_state :=
  mkState (phoneNumber u) g (status u) (net_worth u) (days_survived u) (current_q u).
Definition set_status (s : string) (u : user_state) : user_state :=
  mkState (phoneNumber u) (game u) s (net_worth u) (days_survived u) (current_q u).
Definition set_net_worth (n : Z) (u : user_state) : user_state :=
  mkState (phoneNumber u) (game u) (status u) n (days_survived u) (current_q u).
Definition set_current_q (q : option string) (u : user_state) : user_state :=
  mkState (phoneNumber u) (game u) (status u) (net_worth u) (days_survived u) q.

(** The three assignments made wherever the source ends a game:
    [status = "dead"], [game = None], [current_q = None]. *)
Definition kill (u : user_state) : user_state :=
  set_current_q None (set_game None (set_status "dead" u)).

Definition is_alive (u : user_state) : bool := String.eqb (status u) "alive".

(** The record built for a new player and by the reset command. *)
Definition fresh_state (db_phone_number : string) : user_state :=
  mkState db_phone_number None "alive" 0 0 None.

(** ** The outcome resolver *)

(** One effect dictionary applied to the record (lines 198-207 for the
    outcome, 215-224 for a random event: the same code twice).  The
    ["net_worth"] key is looked at first, the percentage only without it. *)
Definition apply_effect (e : effect) (reply_msg : string) (u : user_state)
  : option (string * user_state) :=
  match eff_net_worth e with
  | Some Die => Some (default_death, kill u)
  | Some (Delta d) => Some (reply_msg, set_net_worth (net_worth u + d) u)
  | None =>
      match eff_net_worth_percentage e with
      | Some p =>
          match int_of_product (net_worth u) p with
          | Some t => Some (reply_msg, set_net_worth (net_worth u + t) u)
          | None => None
          end
      | None => Some (reply_msg, u)
      end
  end.

(** Lines 210-227: the random event named by the outcome, when it is a key
    of [RANDOM_EVENTS].  The third component is the pending next state. *)
Definition apply_random_event (o : outcome) (reply_msg : string)
    (u : user_state) (next_q : option string)
  : option (string * user_state * option string) :=
  match eff_random_event (out_effect o) with
  | Some event_key =>
      match dict_get RANDOM_EVENTS event_key with
      | Some ev =>
          match apply_effect (ev_effect ev)
                  (reply_msg +:+ LF +:+ ev_message ev) u with
          | Some (reply_msg', u') =>
              Some (reply_msg', u',
                    match ev_next_state ev with
                    | Some n => n
                    | None => next_q
                    end)
          | None => None
          end
      | None => Some (reply_msg, u, next_q)
      end
  | None => Some (reply_msg, u, next_q)
  end.

(** Lines 194-227: outcome effect, then random event. *)
Definition apply_effects (o : outcome) (u : user_state)
  : option (string * user_state * option string) :=
  match apply_effect (out_effect o) (out_message o) u with
  | Some (reply_msg, u1) => apply_random_event o reply_msg u1 (out_next_state o)
  | None => None
  end.

(** Lines 229-231. *)
Definition clamp (u : user_state) : user_state :=
  if is_alive u && (net_worth u <? 0) then set_net_worth 0 u else u.

(** Line 240: [next if next else "hustle_intro"]. *)
Definition next_or_intro (next_q : option string) : string :=
  match next_q with
  | Some k => if nonempty k then k else "hustle_intro"
  | None => "hustle_intro"
  end.

(** Lines 233-242. *)
Definition check_win (reply_msg : string) (u : user_state)
    (next_q : option string) : string * user_state :=
  if is_alive u && (HUSTLE_GOAL <=? net_worth u) then
    (reply_msg +:+ LF +:+ win_hustle +:+ LF +:+ "Current Net Worth: KES "
       +:+ str_of_int (net_worth u),
     kill u)
  else if is_alive u then
    (reply_msg, set_current_q (Some (next_or_intro next_q)) u)
  else (reply_msg, u).

Definition apply_outcome_and_get_message (o : outcome) (u : user_state)
  : option (string * user_state) :=
  match apply_effects o u with
  | Some (reply_msg, u1, next_q) => Some (check_win reply_msg (clamp u1) next_q)
  | None => None
  end.

(** ** The users table and the gateway *)

(** The attributes stored beside the [phoneNumber] key: strings for the
    optional keys (the empty string standing for [None]) and [Decimal]
    numbers. *)
Record db_attrs := mkAttrs {
  it_game : string;
  it_status : string;
  it_net_worth : Decimal;
  it_days_survived : Decimal;
  it_current_q : string
}.

Inductive io_event :=
  | PutItem (phone : string) (it : db_attrs)
  | SendSms (recipient text : string).

(** What a turn can touch: the table, keyed by [phoneNumber] ([None] when
    [USERS_TABLE] is unset), whether the SMS client was initialised, and the
    trace of calls made to the two services, oldest first. *)
Record world := mkWorld {
  users_table : option (gmap string db_attrs);
  sms_service : bool;
  io_log : list io_event
}.

(** Computations on the world that may raise ([None]). *)
Definition M (A : Type) : Type := world -> option A * world.

#[global] Instance M_ret : MRet M := fun A a w => (Some a, w).
#[global] Instance M_bind : MBind M := fun A B k m w =>
  match m w with
  | (Some a, w') => k a w'
  | (None, w') => (None, w')
  end.

(** An exception-or-value computed without touching the world. *)
Definition lift {A : Type} (o : option A) : M A := fun w => (o, w).

(** Lines 181-183: [None] becomes the empty string. *)
Definition item_to_save (u : user_state) : db_attrs :=
  mkAttrs (default "" (game u))
          (status u)
          (Decimal_of_int (net_worth u))
          (Decimal_of_int (days_survived u))
          (default "" (current_q u)).

(** Lines 161-167: numbers back to [int], the empty string back to [None]. *)
Definition empty_to_None (s : string) : option string :=
  if String.eqb s "" then None else Some s.

Definition item_to_state (phone : string) (it : db_attrs) : user_state :=
  mkState phone
          (empty_to_None (it_game it))
          (it_status it)
          (int_of_Decimal (it_net_worth it))
          (int_of_Decimal (it_days_survived it))
          (empty_to_None (it_current_q it)).

Definition get_user_state (db_phone_number : string) : M (option user_state) :=
  fun w =>
    match users_table w with
    | None => (Some None, w)
    | Some t => (Some (item_to_state db_phone_number <$> t !! db_phone_number), w)
    end.

(** Lines 175-187: the write, taken to be accepted by the store. *)
Definition save_user_state (u : user_state) : M bool :=
  fun w =>
    match users_table w with
    | None => (Some false, w)
    | Some t =>
        (Some true,
         mkWorld (Some (<[phoneNumber u := item_to_save u]> t)) (sms_service w)
                 (io_log w ++ [PutItem (phoneNumber u) (item_to_save u)]))
    end.

(** Lines 175-190 with the [except] branch: [put_item] raises on an item
    the store refuses, and the helper then returns False, nothing written.
    What the store accepts is the parameter [accepts]. *)
Definition save_user_state_checked (accepts : user_state -> bool)
    (u : user_state) : M bool :=
  fun w =>
    match users_table w with
    | None => (Some false, w)
    | Some t =>
        if accepts u then
          (Some true,
           mkWorld (Some (<[phoneNumber u := item_to_save u]> t)) (sms_service w)
                   (io_log w ++ [PutItem (phoneNumber u) (item_to_save u)]))
        else (Some false, w)
    end.

(** What the store of the deployment accepts (boto3 on DynamoDB, outside
    the source): a key that is not empty, and integers of at most 38
    digits. *)
Definition store_accepts (u : user_state) : bool :=
  nonempty (phoneNumber u)
  && (Z.abs (net_worth u) <? 10 ^ 38)
  && (Z.abs (days_survived u) <? 10 ^ 38).

Definition send_sms_reply (recipient_number message_text : string) : M unit :=
  fun w =>
    if sms_service w then
      (Some tt,
       mkWorld (users_table w) true
               (io_log w ++ [SendSms recipient_number message_text]))
    else (Some tt, w).

(** ** The turn orchestrator *)

Record response := mkResponse { statusCode : Z; body_message : string }.

(** The two values lines 255-263 extract from the webhook event, from its
    url-encoded body or from the event itself: the sender and the text,
    each [None] when absent. *)
Record sms_event := mkSms { sms_from : option string; sms_text : option string }.

Definition menu : string :=
  "What game do you want to play?" +:+ LF +:+ "1. Choose Your Hustle" +:+ LF
    +:+ "2. Pick Up or Perish".

(** [text_message in ["1", "2", "3"]] *)
Definition is_choice (text_message : string) : bool :=
  String.eqb text_message "1" || String.eqb text_message "2"
  || String.eqb text_message "3".

(** The result of testing a key on a value of [GAME_DATA] and then indexing
    it: the key test fails ([Missing]), the dictionary has it ([Found]), or
    the value is a string that contains the key as a substring, so that the
    test passes and the indexing raises ([TypeError]). *)
Inductive probe (A : Type) :=
  | Missing
  | Found (a : A)
  | TypeError.
Arguments Missing {A}.
Arguments Found {A} a.
Arguments TypeError {A}.

(** [data and "outcomes" in data], then [data["outcomes"]]. *)
Definition probe_outcomes (data : option node) : probe (list (string * outcome)) :=
  match data with
  | None => Missing
  | Some (Prompt p) =>
      match p_outcomes p with
      | Some t => Found t
      | None => Missing
      end
  | Some (Terminal s) => if str_contains "outcomes" s then TypeError else Missing
  end.

(** [data and "options" in data], then [data["message"]] and
    [data["options"]]. *)
Definition probe_options (data : option node) : probe (string * list string) :=
  match data with
  | None => Missing
  | Some (Prompt p) => Found (p_message p, p_options p)
  | Some (Terminal s) => if str_contains "options" s then TypeError else Missing
  end.

(** [GAME_DATA.get(key)] for a key that may be [None]. *)
Definition game_data_get (key : option string) : option node :=
  match key with
  | Some k => dict_get GAME_DATA k
  | None => None
  end.

(** ["\n".join(options)] *)
Definition join_lines (l : list string) : string := String.concat LF l.

(** [GAME_DATA["hustle_intro"]["options"]] joined, as the intro re-prompts
    show it. *)
Definition intro_options : string := join_lines (p_options hustle_intro).

(** Lines 365-378 and 412-425: after an outcome, show the prompt of the new
    current node, or end the game when there is none. *)
Definition prompt_next (reply_message : string) (u : user_state)
  : option (string * user_state) :=
  if is_alive u then
    match probe_options (game_data_get (current_q u)) with
    | Found (msg, opts) =>
        Some (reply_message +:+ LF +:+ LF +:+ "Current Net Worth: KES "
                +:+ str_of_int (net_worth u) +:+ LF +:+ msg +:+ LF
                +:+ join_lines opts,
              u)
    | TypeError => None
    | Missing =>
        if bool_decide (current_q u = Some "check_win") then
          Some (reply_message, u)
        else
          Some (reply_message +:+ LF
                  +:+ "Unexpected game end. Reply RESTART to start again.",
                kill u)
    end
  else Some (reply_message, u).

(** Lines 343-387: the turn of a player standing at the intro node.  The
    result is the reply and the record that line 389 saves. *)
Definition intro_turn (text_message : string) (u : user_state)
  : option (string * user_state) :=
  if is_choice text_message then
    let u := set_current_q (p_next_state hustle_intro) u in
    match probe_outcomes (game_data_get (p_next_state hustle_intro)) with
    | Missing =>
        Some ("Error: Game setup for hustle_q1 is incorrect. Reply RESTART.",
              kill u)
    | TypeError => None
    | Found table =>
        match dict_get table text_message with
        | Some o =>
            match apply_outcome_and_get_message o u with
            | Some (reply_message, u') => prompt_next reply_message u'
            | None => None
            end
        | None =>
            Some ("Invalid choice. Please reply with 1, 2, or 3 for your first move."
                    +:+ LF +:+ intro_options,
                  u)
        end
    end
  else
    Some ("Please choose a valid option (1, 2, or 3) to start your hustle."
            +:+ LF +:+ intro_options,
          u).

(** The suffix lines 431-435 and 439-441 add to a re-prompt: the options of
    the current node when it has some, else [fallback]. *)
Definition reprompt_options (data : option node) (fallback : string)
  : option string :=
  match probe_options data with
  | Found (_, opts) => Some (LF +:+ join_lines opts)
  | Missing => Some fallback
  | TypeError => None
  end.

Definition ok (msg : string) : response := mkResponse 200 msg.
Definition bad_request (msg : string) : response := mkResponse 400 msg.

(** Lines 395-448: the turn of a living player at any other node. *)
Definition question_turn (original_from_number text_message : string)
    (u : user_state) : M response :=
  let current_q_data := game_data_get (current_q u) in
  match probe_outcomes current_q_data with
  | Missing =>
      let reply_message :=
        "Error: Invalid game state (missing outcomes for current question). Reply RESTART to begin anew." in
      _ ← save_user_state (kill u);
      _ ← send_sms_reply original_from_number reply_message;
      mret (ok "Error in game state.")
  | found =>
      if is_choice text_message then
        match found with
        | Found table =>
            match dict_get table text_message with
            | Some o =>
                '(reply_message, u') ←
                  lift (match apply_outcome_and_get_message o u with
                        | Some (r, u1) => prompt_next r u1
                        | None => None
                        end);
                _ ← save_user_state u';
                _ ← send_sms_reply original_from_number reply_message;
                mret (ok "SMS received and processed successfully!")
            | None =>
                suffix ← lift (reprompt_options current_q_data
                                 (LF +:+ "Reply RESTART to begin anew."));
                _ ← send_sms_reply original_from_number
                      ("Invalid choice. Please reply with 1, 2, or 3." +:+ suffix);
                mret (ok "SMS received and processed successfully!")
            end
        | _ => lift None
        end
      else
        suffix ← lift (reprompt_options current_q_data "");
        _ ← send_sms_reply original_from_number
              ("I don't understand that. Please choose an option (1, 2, 3) or reply RESTART."
                 +:+ suffix);
        mret (ok "SMS received and processed successfully!")
  end.

(** Line 322 and line 328: the inputs that pick a game from the menu. *)
Definition is_hustle_choice (text_message : string) : bool :=
  String.eqb text_message "1" || String.eqb text_message "CHOOSE YOUR HUSTLE"
  || String.eqb text_message "HUSTLE".

Definition is_perish_choice (text_message : string) : bool :=
  String.eqb text_message "2" || String.eqb text_message "PICK UP OR PERISH"
  || String.eqb text_message "PERISH".

(** Lines 321-334: no game chosen yet. *)
Definition game_selection (original_from_number text_message : string)
    (u : user_state) : M response :=
  _ ← (if is_hustle_choice text_message then
         let u := set_current_q (Some "hustle_intro") (set_game (Some "hustle") u) in
         _ ← save_user_state u;
         send_sms_reply original_from_number
           (p_message hustle_intro +:+ LF +:+ intro_options)
       else if is_perish_choice text_message then
         send_sms_reply original_from_number
           "Pick Up or Perish is not ready yet. Try Choose Your Hustle (reply 1)."
       else
         send_sms_reply original_from_number ("Welcome! " +:+ menu));
  mret (ok "Game selection handled.").

(** Lines 285-448, once sender and text are known. *)
Definition handle_turn (original_from_number db_phone_number text_message : string)
  : M response :=
  loaded ← get_user_state db_phone_number;
  let current_user_state := default (fresh_state db_phone_number) loaded in
  if String.eqb text_message "RESTART" then
    _ ← save_user_state (fresh_state db_phone_number);
    _ ← send_sms_reply original_from_number ("Welcome back! " +:+ menu);
    mret (ok "Game restarted.")
  else
    match game current_user_state with
    | None => game_selection original_from_number text_message current_user_state
    | Some g =>
        if String.eqb g "hustle" && is_alive current_user_state then
          if bool_decide (current_q current_user_state = Some "hustle_intro") then
            '(reply_message, u') ← lift (intro_turn text_message current_user_state);
            _ ← save_user_state u';
            _ ← send_sms_reply original_from_number reply_message;
            mret (ok "Hustle intro choice processed.")
          else
            question_turn original_from_number text_message current_user_state
        else
          _ ← send_sms_reply original_from_number "";
          mret (ok "SMS received and processed successfully!")
    end.

(** Lines 245-283: extraction of sender and text ([text.strip().upper()],
    the sender without its ['+']), then the turn. *)
Definition inbound_sms_handler (event : sms_event) : M response :=
  match sms_text event with
  | None => mret (bad_request "Bad Request: Could not parse SMS body")
  | Some raw =>
      let text_message := upper (strip raw) in
      match sms_from event with
      | Some original_from_number =>
          if nonempty original_from_number && nonempty text_message then
            handle_turn original_from_number
              (remove_char "+" original_from_number) text_message
          else mret (bad_request "Bad Request: Missing SMS parameters")
      | None => mret (bad_request "Bad Request: Missing SMS parameters")
      end
  end.

(** Lines 245-283 with [text.strip().upper()] as the parameter
    [normalise]; [inbound_sms_handler] is the instance at the ASCII
    [upper] after [strip]. *)
Definition inbound_sms_handler_on (normalise : string -> string)
    (event : sms_event) : M response :=
  match sms_text event with
  | None => mret (bad_request "Bad Request: Could not parse SMS body")
  | Some raw =>
      let text_message := normalise raw in
      match sms_from event with
      | Some original_from_number =>
          if nonempty original_from_number && nonempty text_message then
            handle_turn original_from_number
              (remove_char "+" original_from_number) text_message
          else mret (bad_request "Bad Request: Missing SMS parameters")
      | None => mret (bad_request "Bad Request: Missing SMS parameters")
      end
  end.

(** A sequence of inbound messages, each handled to completion before the
    next one; the world after the last. *)
Fixpoint run_turns (events : list sms_event) (w : world) : world :=
  match events with
  | [] => w
  | e :: rest => run_turns rest (snd (inbound_sms_handler e w))
  end.

(** ** Definitions used to state the properties *)

(** The record of the scenarios: phone 254..., playing, alive. *)
Definition player (n : Z) (q : string) : user_state :=
  mkState "254700000000" (Some "hustle") "alive" n 0 (Some q).

(** [GAME_DATA[q]["outcomes"][choice]], when [q] is a prompt with a table. *)
Definition outcome_at (q choice : string) : option outcome :=
  match dict_get GAME_DATA q with
  | Some (Prompt p) =>
      match p_outcomes p with
      | Some table => dict_get table choice
      | None => None
      end
  | _ => None
  end.

(** The random event an outcome triggers: its ["random_event"] key when
    that is a key of [RANDOM_EVENTS]. *)
Definition triggered_event (o : outcome) : option random_event :=
  match eff_random_event (out_effect o) with
  | Some event_key => dict_get RANDOM_EVENTS event_key
  | None => None
  end.

(** The effect is the elimination marker. *)
Definition eliminates (e : effect) : Prop := eff_net_worth e = Some Die.

(** The effect consults no percentage. *)
Definition no_percentage (e : effect) : Prop :=
  eff_net_worth e <> None \/ eff_net_worth_percentage e = None.

(** Following the specification's words: the floor of a float, rounding
    toward negative infinity. *)
Definition float_floor (x : spec_float) : option Z :=
  match x with
  | S754_zero _ => Some 0
  | S754_finite s m e => Some (Z.shiftl (cond_Zopp s (Zpos m)) e)
  | S754_infinity _ | S754_nan => None
  end.

(** Following the specification's words:
    [net_worth += floor(net_worth * percentage)]. *)
Definition floor_percentage_update (n : Z) (p : spec_float) : option Z :=
  match float_product n p with
  | Some x =>
      match float_floor x with
      | Some fl => Some (n + fl)
      | None => None
      end
  | None => None
  end.

(** [x] is negative and not an integer. *)
Definition negative_fraction (x : spec_float) : bool :=
  match x with
  | S754_finite true m e => (e <? 0) && negb (Zpos m mod 2 ^ (- e) =? 0)
  | _ => false
  end.

(** An outcome that eliminates the player and also names a random event. *)
Definition fatal_with_event : outcome :=
  mkOutcome (mkEffect (Some Die) None (Some "ghosted")) "A fatal move." None.

(** The float literal [0.5]. *)
Definition plus_half : spec_float := S754_finite false 4503599627370496 (-53).

(** The events a list of messages from one sender stands for. *)
Definition sms (sender text : string) : sms_event := mkSms (Some sender) (Some text).

(** What [send_sms_reply] adds to the trace. *)
Definition sent (w : world) (recipient text : string) : list io_event :=
  if sms_service w then [SendSms recipient text] else [].

(** The record the table holds for a phone number, as [get_user_state]
    returns it. *)
Definition stored (db_phone_number : string) (w : world) : option user_state :=
  match fst (get_user_state db_phone_number w) with
  | Some r => r
  | None => None
  end.

(** The table key of a sender: the number without its plus signs. *)
Definition db_key (sender : string) : string := remove_char "+" sender.

(** The record [get_user_state] builds from the item found under the
    sender's key. *)
Definition loaded (sender : string) (it : db_attrs) : user_state :=
  item_to_state (db_key sender) it.

(** A table that holds exactly one record, and the world around it. *)
Definition table_of (u : user_state) : gmap string db_attrs :=
  {[ phoneNumber u := item_to_save u ]}.

Definition world_of (u : user_state) : world :=
  mkWorld (Some (table_of u)) true [].

(** The world of a first contact: an empty table. *)
Definition new_world : world := mkWorld (Some ∅) true [].



(** The reply of the lend-money turn once the player stands at
    [hustle_q3]. *)
Definition next_prompt_text (u : user_state) : string :=
  ("You lent the money. Fingers crossed!" +:+ LF
     +:+ "Oh no! Your cousin ghosted you! That KES 2000 is gone forever. (-KES 2000)")
    +:+ LF +:+ LF +:+ "Current Net Worth: KES " +:+ str_of_int (net_worth u)
    +:+ LF +:+ p_message hustle_q3 +:+ LF +:+ join_lines (p_options hustle_q3).

(** ** Further definitions used to state properties *)

(** The next state pending when the effects are done (lines 195 and 227):
    the triggered event's [next_state] when the event has that key, else
    the outcome's. *)
Definition pending_next (o : outcome) : option string :=
  match triggered_event o with
  | Some ev =>
      match ev_next_state ev with
      | Some n => n
      | None => out_next_state o
      end
  | None => out_next_state o
  end.

(** The position of a prompt along the script; a key that holds no prompt
    has none. *)
Definition node_rank (q : string) : option nat :=
  if String.eqb q "hustle_intro" then Some 0%nat
  else if String.eqb q "hustle_q1" then Some 1%nat
  else if String.eqb q "hustle_q2" then Some 2%nat
  else if String.eqb q "hustle_q3" then Some 3%nat
  else if String.eqb q "hustle_q4" then Some 4%nat
  else None.

(** The prompt [q'] comes later in the script than the prompt [q]. *)
Definition further_along (q q' : string) : Prop :=
  exists i j : nat, node_rank q = Some i /\ node_rank q' = Some j /\ (i < j)%nat.

(** The record a turn starts from: the stored one, or a fresh one. *)
Definition current_state (db_phone_number : string) (w : world) : user_state :=
  default (fresh_state db_phone_number) (stored db_phone_number w).

(** What a finished turn does to the world: the record saved, if any, then
    the reply sent. *)
Definition commit (saved : option user_state) (recipient reply : string)
    (w : world) : world :=
  snd (send_sms_reply recipient reply
         (match saved with
          | Some u => snd (save_user_state u w)
          | None => w
          end)).

(** A living record holds a net worth inside the game's range. *)
Definition record_ok (u : user_state) : Prop :=
  status u = "alive" -> 0 <= net_worth u < HUSTLE_GOAL.

(** Every record of the table is [record_ok]. *)
Definition table_ok (w : world) : Prop :=
  forall (t : gmap string db_attrs) (k : string) (it : db_attrs),
    users_table w = Some t -> t !! k = Some it ->
    record_ok (item_to_state k it).

(** What a turn started from record [u] with the normalised text [text]
    may come to: an exception, only from a record that is not [record_ok],
    or a 200 response with at most one record saved and one reply.  A saved
    record keeps the phone number, is [record_ok] when [u] was, and is alive
    only when [u] was or the text is the reset command. *)
Inductive turn_result (sender text : string) (u : user_state) (w : world)
  : option response * world -> Prop :=
  | turn_raised :
      ~ record_ok u -> turn_result sender text u w (None, w)
  | turn_done (saved : option user_state) (reply msg : string) :
      (forall u', saved = Some u' ->
         phoneNumber u' = phoneNumber u
         /\ (record_ok u -> record_ok u')
         /\ (status u' = "alive" -> status u = "alive" \/ text = "RESTART")) ->
      turn_result sender text u w
        (Some (ok msg), commit saved sender reply w).

(** A message the handler refuses: no text, no sender, an empty sender, or
    a text that is empty once normalised. *)
Definition malformed (normalise : string -> string) (ev : sms_event) : Prop :=
  match sms_text ev, sms_from ev with
  | None, _ => True
  | Some _, None => True
  | Some raw, Some sender => sender = "" \/ normalise raw = ""
  end.

(** The keys of [GAME_DATA] that hold a prompt. *)
Definition script_nodes : list string :=
  ["hustle_intro"; "hustle_q1"; "hustle_q2"; "hustle_q3"; "hustle_q4"].

(** The reply of the game menu (lines 322-331). *)
Definition selection_reply (text_message : string) : string :=
  if is_hustle_choice text_message then
    p_message hustle_intro +:+ LF +:+ intro_options
  else if is_perish_choice text_message then
    "Pick Up or Perish is not ready yet. Try Choose Your Hustle (reply 1)."
  else "Welcome! " +:+ menu.

(** Unfolding of the world monad. *)
Ltac run_monad := unfold mbind, M_bind, mret, M_ret, lift.

(** ** Basic facts *)

Lemma str_append_assoc (a b c : string) : (a +:+ b) +:+ c = a +:+ (b +:+ c).
Proof.
  induction a as [| x a IH]; [reflexivity |].
  change (String x ((a +:+ b) +:+ c) = String x (a +:+ (b +:+ c))).
  now rewrite IH.
Qed.

Lemma contains_middle (pre sub post : string) : contains sub (pre +:+ sub +:+ post).
Proof. exists pre, post. reflexivity. Qed.

Lemma is_alive_iff (u : user_state) : is_alive u = true <-> status u = "alive".
Proof. unfold is_alive. apply String.eqb_eq. Qed.

Lemma is_alive_false (u : user_state) : is_alive u = false <-> status u <> "alive".
Proof. unfold is_alive. apply String.eqb_neq. Qed.

Lemma kill_dead (u : user_state) :
  status (kill u) = "dead" /\ game (kill u) = None /\ current_q (kill u) = None.
Proof. repeat split. Qed.

Lemma kill_not_alive (u : user_state) : is_alive (kill u) = false.
Proof. reflexivity. Qed.

Lemma clamp_status (u : user_state) : status (clamp u) = status u.
Proof. unfold clamp. now destruct (is_alive u && (net_worth u <? 0)). Qed.

Lemma clamp_alive_nonneg (u : user_state) :
  status u = "alive" -> net_worth (clamp u) = Z.max 0 (net_worth u).
Proof.
  intros Ha. unfold clamp. apply is_alive_iff in Ha. rewrite Ha. simpl.
  destruct (Z.ltb_spec (net_worth u) 0); simpl; lia.
Qed.

Lemma clamp_id (u : user_state) : 0 <= net_worth u -> clamp u = u.
Proof.
  intros Hn. unfold clamp.
  destruct (Z.ltb_spec (net_worth u) 0); [lia |].
  now rewrite andb_false_r.
Qed.

(** The three exits of [check_win]. *)
Lemma check_win_goal (r : string) (u : user_state) (next_q : option string) :
  status u = "alive" -> HUSTLE_GOAL <= net_worth u ->
  check_win r u next_q =
    (r +:+ LF +:+ win_hustle +:+ LF +:+ "Current Net Worth: KES "
       +:+ str_of_int (net_worth u), kill u).
Proof.
  intros Ha Hg. unfold check_win. apply is_alive_iff in Ha. rewrite Ha.
  destruct (Z.leb_spec HUSTLE_GOAL (net_worth u)); [reflexivity | lia].
Qed.

Lemma check_win_continue (r : string) (u : user_state) (next_q : option string) :
  status u = "alive" -> net_worth u < HUSTLE_GOAL ->
  check_win r u next_q = (r, set_current_q (Some (next_or_intro next_q)) u).
Proof.
  intros Ha Hg. unfold check_win. apply is_alive_iff in Ha. rewrite Ha.
  destruct (Z.leb_spec HUSTLE_GOAL (net_worth u)); [lia | reflexivity].
Qed.

Lemma check_win_dead (r : string) (u : user_state) (next_q : option string) :
  status u <> "alive" -> check_win r u next_q = (r, u).
Proof.
  intros Ha. unfold check_win. apply is_alive_false in Ha. now rewrite Ha.
Qed.

Lemma some_pair {A B : Type} (p : A * B) : exists a b, Some p = Some (a, b).
Proof. destruct p as [a b]. now exists a, b. Qed.

(** An effect without a consulted percentage never raises. *)
Lemma apply_effect_returns (e : effect) (r : string) (u : user_state) :
  no_percentage e -> exists r' u', apply_effect e r u = Some (r', u').
Proof.
  intros [Hn | Hp]; unfold apply_effect.
  - destruct (eff_net_worth e) as [[d |] |]; [eauto | eauto | congruence].
  - rewrite Hp. destruct (eff_net_worth e) as [[d |] |]; eauto.
Qed.

(** The resolver returns whenever neither the outcome nor the event it
    triggers consults a percentage: every outcome of [GAME_DATA] but the
    first of [hustle_q3]. *)
Lemma resolver_returns (o : outcome) (u : user_state) :
  no_percentage (out_effect o) ->
  (forall ev, triggered_event o = Some ev -> no_percentage (ev_effect ev)) ->
  exists r u', apply_outcome_and_get_message o u = Some (r, u').
Proof.
  intros Ho Hev. unfold apply_outcome_and_get_message, apply_effects.
  destruct (apply_effect_returns (out_effect o) (out_message o) u Ho)
    as (r1 & u1 & ->).
  unfold apply_random_event. unfold triggered_event in Hev.
  destruct (eff_random_event (out_effect o)) as [k |]; [| apply some_pair].
  destruct (dict_get RANDOM_EVENTS k) as [ev |]; [| apply some_pair].
  destruct (apply_effect_returns (ev_effect ev)
              (r1 +:+ LF +:+ ev_message ev) u1 (Hev ev eq_refl))
    as (r2 & u2 & ->).
  apply some_pair.
Qed.

(** ** The outcome resolver *)

(** C1. Whenever the effects of an outcome (its own and those of the event
    it triggers) leave a living record with a net worth of at least the
    goal, the resolver returns, the returned record is dead with neither
    game nor current node, and the reply contains the win message.  This
    holds for every outcome and every record, whatever its earlier status. *)
Theorem reaching_goal_ends_game (o : outcome) (u u1 : user_state)
    (reply : string) (next_q : option string) :
  apply_effects o u = Some (reply, u1, next_q) ->
  status u1 = "alive" ->
  HUSTLE_GOAL <= net_worth u1 ->
  exists reply' u',
    apply_outcome_and_get_message o u = Some (reply', u') /\
    status u' = "dead" /\ game u' = None /\ current_q u' = None /\
    contains win_hustle reply'.
Proof.
  intros He Ha Hg. unfold apply_outcome_and_get_message. rewrite He.
  assert (Hpos : 0 <= net_worth u1) by (unfold HUSTLE_GOAL in Hg; lia).
  rewrite (clamp_id u1 Hpos), (check_win_goal reply u1 next_q Ha Hg).
  eexists _, _. split; [reflexivity |].
  split; [reflexivity |]. split; [reflexivity |]. split; [reflexivity |].
  rewrite <- str_append_assoc. apply contains_middle.
Qed.

Lemma reaching_goal_ends_game_witness :
  exists reply' u',
    apply_outcome_and_get_message
      (mkOutcome (add 8000) "You sold your hustle! A solid exit. (+KES 8000)"
                 (Some "check_win"))
      (player 2500 "hustle_q4") = Some (reply', u') /\
    status u' = "dead" /\ game u' = None /\ current_q u' = None /\
    contains win_hustle reply'.
Proof.
  apply (reaching_goal_ends_game _ (player 2500 "hustle_q4")
           (player 10500 "hustle_q4")
           "You sold your hustle! A solid exit. (+KES 8000)"
           (Some "check_win")).
  - reflexivity.
  - reflexivity.
  - unfold HUSTLE_GOAL. simpl. lia.
Defined.

(** A record the resolver returns alive is below the goal. *)
Lemma alive_result_below_goal (o : outcome) (u u' : user_state) (reply : string) :
  apply_outcome_and_get_message o u = Some (reply, u') ->
  status u' = "alive" -> net_worth u' < HUSTLE_GOAL.
Proof.
  unfold apply_outcome_and_get_message.
  destruct (apply_effects o u) as [[[r u1] nq] |]; [| discriminate].
  intros [= Hc]. revert Hc. unfold check_win.
  destruct (is_alive (clamp u1)) eqn:Ha; simpl.
  - destruct (Z.leb_spec HUSTLE_GOAL (net_worth (clamp u1)));
      simpl; intros [= <- <-]; simpl.
    + discriminate.
    + intros _. assumption.
  - intros [= <- <-] Hs. apply is_alive_false in Ha. contradiction.
Qed.

(** C2. A record the resolver returns alive has a net worth of at least
    zero, for every outcome and every input record. *)
Theorem alive_result_nonneg (o : outcome) (u u' : user_state) (reply : string) :
  apply_outcome_and_get_message o u = Some (reply, u') ->
  status u' = "alive" -> 0 <= net_worth u'.
Proof.
  unfold apply_outcome_and_get_message.
  destruct (apply_effects o u) as [[[r u1] nq] |]; [| discriminate].
  intros [= Hc]. revert Hc. unfold check_win.
  destruct (is_alive (clamp u1)) eqn:Ha; simpl.
  - apply is_alive_iff in Ha. rewrite clamp_status in Ha.
    destruct (Z.leb_spec HUSTLE_GOAL (net_worth (clamp u1)));
      simpl; intros [= <- <-]; simpl.
    + discriminate.
    + intros _. rewrite (clamp_alive_nonneg u1 Ha). lia.
  - intros [= <- <-] Hs. apply is_alive_false in Ha. contradiction.
Qed.

Lemma alive_result_nonneg_witness :
  0 <= net_worth (set_current_q (Some "hustle_q2") (player 0 "hustle_q1")).
Proof.
  apply (alive_result_nonneg
           (mkOutcome (add (-1000))
              "He got impatient and pulled out. You wasted time. (-KES 1000)"
              (Some "hustle_q2"))
           (player 0 "hustle_q1") _
           "He got impatient and pulled out. You wasted time. (-KES 1000)").
  - reflexivity.
  - reflexivity.
Defined.

(** *** Elimination *)

Lemma apply_effect_die (e : effect) (r : string) (u : user_state) :
  eliminates e -> apply_effect e r u = Some (default_death, kill u).
Proof. unfold eliminates, apply_effect. now intros ->. Qed.

Lemma apply_effect_keeps (e : effect) (r r' : string) (u u' : user_state) :
  ~ eliminates e -> apply_effect e r u = Some (r', u') ->
  r' = r /\ status u' = status u.
Proof.
  unfold eliminates, apply_effect. intros Hne.
  destruct (eff_net_worth e) as [[d |] |].
  - now intros [= <- <-].
  - congruence.
  - destruct (eff_net_worth_percentage e) as [p |].
    + destruct (int_of_product (net_worth u) p); [| discriminate].
      now intros [= <- <-].
    + now intros [= <- <-].
Qed.

(** Once the effects leave the record dead, the composed reply is final. *)
Lemma resolver_dead (o : outcome) (u u1 : user_state) (r : string)
    (next_q : option string) :
  apply_effects o u = Some (r, u1, next_q) -> status u1 = "dead" ->
  apply_outcome_and_get_message o u = Some (r, u1).
Proof.
  intros He Hd. unfold apply_outcome_and_get_message. rewrite He.
  assert (Hna : status u1 <> "alive") by (rewrite Hd; discriminate).
  assert (Hc : clamp u1 = u1).
  { unfold clamp. apply is_alive_false in Hna. now rewrite Hna. }
  rewrite Hc. now rewrite check_win_dead.
Qed.

(** C3, as the resolver has it.  For every outcome and record on which the
    resolver returns: when the triggered random event eliminates the player
    the reply is exactly the default-death message; when the outcome itself
    eliminates the player and triggers no event, likewise; when the outcome
    eliminates the player and triggers an event that does not, the reply is
    the default-death message followed by a line feed and the event's
    message. *)
Theorem elimination_reply (o : outcome) (u u' : user_state) (reply : string) :
  apply_outcome_and_get_message o u = Some (reply, u') ->
  (forall ev, triggered_event o = Some ev -> eliminates (ev_effect ev) ->
     reply = default_death) /\
  (eliminates (out_effect o) -> triggered_event o = None ->
     reply = default_death) /\
  (forall ev, eliminates (out_effect o) -> triggered_event o = Some ev ->
     ~ eliminates (ev_effect ev) ->
     reply = default_death +:+ LF +:+ ev_message ev).
Proof.
  intros Hret. repeat apply conj.
  - intros ev Htr Hdie.
    assert (He : exists r1 u1, apply_effects o u
                   = Some (default_death, kill u1, r1)).
    { unfold apply_outcome_and_get_message in Hret.
      unfold apply_effects, apply_random_event in *.
      unfold triggered_event in Htr.
      destruct (apply_effect (out_effect o) (out_message o) u)
        as [[r1 u1] |]; [| discriminate].
      destruct (eff_random_event (out_effect o)) as [k |]; [| discriminate].
      rewrite Htr. rewrite (apply_effect_die _ _ _ Hdie). eauto. }
    destruct He as (nq & u1 & He).
    rewrite (resolver_dead o u _ _ _ He eq_refl) in Hret. congruence.
  - intros Hdie Htr.
    assert (He : apply_effects o u
                 = Some (default_death, kill u, out_next_state o)).
    { unfold apply_effects, apply_random_event.
      rewrite (apply_effect_die _ _ _ Hdie).
      unfold triggered_event in Htr.
      destruct (eff_random_event (out_effect o)) as [k |]; [| reflexivity].
      now rewrite Htr. }
    rewrite (resolver_dead o u _ _ _ He eq_refl) in Hret. congruence.
  - intros ev Hdie Htr Hne.
    unfold apply_outcome_and_get_message in Hret.
    destruct (apply_effects o u) as [[[r1 u1] nq] |] eqn:He; [| discriminate].
    assert (Hr : r1 = default_death +:+ LF +:+ ev_message ev
                 /\ status u1 = "dead").
    { unfold apply_effects, apply_random_event in He.
      rewrite (apply_effect_die _ _ _ Hdie) in He.
      unfold triggered_event in Htr.
      destruct (eff_random_event (out_effect o)) as [k |]; [| discriminate].
      rewrite Htr in He.
      destruct (apply_effect (ev_effect ev)
                  (default_death +:+ LF +:+ ev_message ev) (kill u))
        as [[r2 u2] |] eqn:Hev; [| discriminate].
      destruct (apply_effect_keeps _ _ _ _ _ Hne Hev) as [-> Hs].
      injection He as <- <- _. split; [reflexivity | exact Hs]. }
    destruct Hr as [-> Hd].
    assert (Hfull := resolver_dead o u u1 _ nq He Hd).
    unfold apply_outcome_and_get_message in Hfull. rewrite He in Hfull.
    congruence.
Qed.

Lemma elimination_reply_witness :
  exists reply u',
    apply_outcome_and_get_message
      (mkOutcome (add_event (-1500) "market_crash")
         "You hold on, hoping for more. (-KES 1500)" None)
      (player 4500 "hustle_q4") = Some (reply, u') /\
    reply = default_death.
Proof.
  exists default_death, (kill (player 3000 "hustle_q4")).
  split; [reflexivity |].
  apply (proj1 (elimination_reply
                  (mkOutcome (add_event (-1500) "market_crash")
                     "You hold on, hoping for more. (-KES 1500)" None)
                  (player 4500 "hustle_q4")
                  (kill (player 3000 "hustle_q4"))
                  default_death eq_refl)
           (mkEvent
              "The market crashed right after you rejected the offer! Your hustle's value plummeted. (-ALL)"
              (mkEffect (Some Die) None None) (Some None))).
  - reflexivity.
  - reflexivity.
Defined.

(** The claim as worded fails: an eliminating outcome that triggers the
    [ghosted] event gets the event's message appended after the
    default-death message. *)
Lemma elimination_reply_with_event_appended :
  eliminates (out_effect fatal_with_event) /\
  exists reply u',
    apply_outcome_and_get_message fatal_with_event (player 5000 "hustle_q2")
      = Some (reply, u') /\
    reply <> default_death.
Proof.
  split; [reflexivity |].
  eexists _, _. split; [reflexivity |].
  apply String.eqb_neq. vm_compute. reflexivity.
Qed.

(** *** Percentages *)

Lemma shiftl_as_div (a e : Z) : e < 0 -> Z.shiftl a e = a / 2 ^ (- e).
Proof.
  intros He. replace e with (- (- e)) at 1 by lia.
  rewrite Z.shiftl_opp_r. apply Z.shiftr_div_pow2. lia.
Qed.

(** Dropping the fraction against taking the floor: they agree except on
    negative non-integers, where the floor is one lower. *)
Lemma int_of_float_floor (x : spec_float) (fl : Z) :
  float_floor x = Some fl ->
  int_of_float x = Some (fl + (if negative_fraction x then 1 else 0)).
Proof.
  destruct x as [s | s | | s m e]; simpl; try discriminate.
  - intros [= <-]. reflexivity.
  - intros [= <-]. f_equal. destruct s; simpl; [| lia].
    destruct (Z.ltb_spec e 0) as [He | He]; simpl.
    + rewrite !shiftl_as_div by assumption.
      assert (Hd : 2 ^ (- e) <> 0) by (apply Z.pow_nonzero; lia).
      change (Z.neg m) with (- Z.pos m).
      destruct (Z.eqb_spec (Z.pos m mod 2 ^ (- e)) 0) as [Hz | Hz]; simpl.
      * rewrite Z.div_opp_l_z by assumption. lia.
      * rewrite Z.div_opp_l_nz by assumption. lia.
    + rewrite !Z.shiftl_mul_pow2 by assumption. lia.
Qed.

Lemma iter_xO_value (m k : positive) : Zpos (Pos.iter xO m k) = Zpos m * 2 ^ Zpos k.
Proof.
  induction k as [| k IHk] using Pos.peano_ind.
  - simpl. lia.
  - rewrite Pos.iter_succ. rewrite Pos2Z.inj_xO, IHk.
    rewrite Pos2Z.inj_succ, Z.pow_succ_r by lia. lia.
Qed.

Lemma digits2_iter_xO (m k : positive) :
  digits2_pos (Pos.iter xO m k) = (digits2_pos m + k)%positive.
Proof.
  induction k as [| k IHk] using Pos.peano_ind.
  - simpl. lia.
  - rewrite Pos.iter_succ. simpl. rewrite IHk. lia.
Qed.

Lemma mul_minus_half (s : bool) (m : positive) (e : Z) :
  digits2_pos m = 53%positive -> -1073 <= e <= 972 ->
  SFmul prec64 emax64 (S754_finite s m e) minus_half
    = S754_finite (negb s) m (e - 1).
Proof.
  intros Hd He. unfold SFmul, minus_half.
  rewrite Pos.mul_comm.
  unfold binary_round_aux, shr_fexp.
  change (Z.pos (4503599627370496 * m)) with (Z.pos (Pos.iter xO m 52)).
  unfold Zdigits2 at 1. rewrite digits2_iter_xO, Hd.
  unfold fexp, emin, prec64, emax64.
  replace (Z.max (Z.pos (53 + 52) + (e + -53) - 53) (3 - 1024 - 53) - (e + -53)) with 52 by lia.
  change (shr (shr_record_of_loc (Z.pos (Pos.iter xO m 52)) loc_Exact) (e + -53) 52)
    with (Build_shr_record (Z.pos m) false false, e + -53 + 52).
  cbv beta iota zeta.
  change (round_nearest_even (shr_m (Build_shr_record (Z.pos m) false false))
            (loc_of_shr_record (Build_shr_record (Z.pos m) false false)))
    with (Z.pos m).
  unfold Zdigits2. rewrite Hd.
  replace (Z.max (53 + (e + -53 + 52) - 53) (3 - 1024 - 53) - (e + -53 + 52))
    with 0 by lia.
  cbv beta iota zeta delta [shr shr_record_of_loc shr_m].
  destruct (Z.leb_spec (e + -53 + 52) (1024 - 53)); [| lia].
  rewrite xorb_true_r. f_equal. lia.
Qed.

Lemma digits2_bounds (m : positive) :
  2 ^ (Z.pos (digits2_pos m) - 1) <= Z.pos m < 2 ^ Z.pos (digits2_pos m).
Proof.
  induction m as [m IH | m IH |]; simpl digits2_pos.
  - rewrite Pos2Z.inj_succ, (Pos2Z.inj_xI m).
    replace (Z.succ (Z.pos (digits2_pos m)) - 1)
      with (Z.succ (Z.pos (digits2_pos m) - 1)) by lia.
    rewrite !Z.pow_succ_r by lia. lia.
  - rewrite Pos2Z.inj_succ, (Pos2Z.inj_xO m).
    replace (Z.succ (Z.pos (digits2_pos m)) - 1)
      with (Z.succ (Z.pos (digits2_pos m) - 1)) by lia.
    rewrite !Z.pow_succ_r by lia. lia.
  - simpl. lia.
Qed.

Lemma round_aux_exact (s : bool) (m : positive) (e : Z) :
  digits2_pos m = 53%positive -> -1074 <= e <= 971 ->
  binary_round_aux prec64 emax64 s (Z.pos m) e loc_Exact = S754_finite s m e.
Proof.
  intros Hd He. unfold binary_round_aux, shr_fexp.
  unfold Zdigits2 at 1. rewrite Hd. unfold fexp, emin, prec64, emax64.
  replace (Z.max (53 + e - 53) (3 - 1024 - 53) - e) with 0 by lia.
  cbv beta iota zeta delta [shr shr_record_of_loc shr_m loc_of_shr_record
                              round_nearest_even].
  unfold Zdigits2. rewrite Hd.
  replace (Z.max (53 + e - 53) (3 - 1024 - 53) - e) with 0 by lia.
  cbv beta iota zeta.
  destruct (Z.leb_spec e (1024 - 53)); [reflexivity | lia].
Qed.

Lemma round_int (s : bool) (m : positive) :
  Z.pos m < 2 ^ 53 ->
  exists (mz : positive) (ez : Z),
    binary_round prec64 emax64 s m 0 = S754_finite s mz ez /\
    digits2_pos mz = 53%positive /\ -52 <= ez <= 0 /\
    Z.pos mz = Z.pos m * 2 ^ (- ez).
Proof.
  intros Hm. destruct (digits2_bounds m) as [Hlo _].
  assert (Hd : Z.pos (digits2_pos m) <= 53).
  { destruct (Z.le_gt_cases (Z.pos (digits2_pos m)) 53) as [H | H]; [exact H |].
    assert (2 ^ 53 <= 2 ^ (Z.pos (digits2_pos m) - 1))
      by (apply Z.pow_le_mono_r; lia).
    lia. }
  unfold binary_round, fexp, emin.
  destruct (Z.eq_dec (Z.pos (digits2_pos m)) 53) as [He | Hne].
  - exists m, 0.
    replace (Z.max (Z.pos (digits2_pos m) + 0 - prec64) (3 - emax64 - prec64))
      with 0 by (unfold prec64, emax64; lia).
    cbv beta iota zeta delta [shl_align Z.sub Z.add Z.opp].
    rewrite round_aux_exact by (try lia; congruence).
    split; [reflexivity |]. split; [congruence |]. split; [lia |].
    simpl. lia.
  - set (k := Z.to_pos (53 - Z.pos (digits2_pos m))).
    exists (Pos.iter xO m k), (Z.neg k).
    replace (Z.max (Z.pos (digits2_pos m) + 0 - prec64) (3 - emax64 - prec64))
      with (Z.neg k) by (unfold prec64, emax64, k; lia).
    cbv beta iota zeta delta [shl_align Z.sub Z.add Z.opp].
    assert (Hdk : digits2_pos (Pos.iter xO m k) = 53%positive).
    { rewrite digits2_iter_xO. unfold k. lia. }
    rewrite round_aux_exact by (try exact Hdk; unfold k; lia).
    split; [reflexivity |]. split; [exact Hdk |]. split; [unfold k; lia |].
    rewrite iter_xO_value. reflexivity.
Qed.

(** Halving: the product with [-0.5] of an integer below [2^53] in
    magnitude, its fraction dropped, is the negated half rounded toward
    zero. *)
Lemma int_of_product_minus_half (n : Z) :
  - 2 ^ 53 < n < 2 ^ 53 -> int_of_product n minus_half = Some (- (n ÷ 2)).
Proof.
  intros Hn. unfold int_of_product, float_product, float_of_int, binary_normalize.
  assert (Hhalf : forall (m mz : positive) (ez : Z),
             -52 <= ez <= 0 -> Z.pos mz = Z.pos m * 2 ^ (- ez) ->
             Z.shiftl (Z.pos mz) (ez - 1) = Z.pos m ÷ 2).
  { intros m mz ez He Hv. rewrite shiftl_as_div by lia. rewrite Hv.
    replace (- (ez - 1)) with (1 + - ez) by lia.
    rewrite Z.pow_add_r by lia. change (2 ^ 1) with 2.
    rewrite Z.quot_div_nonneg by lia.
    apply Z.div_mul_cancel_r; [lia |]. apply Z.pow_nonzero; lia. }
  destruct n as [| m | m].
  - reflexivity.
  - destruct (round_int false m) as (mz & ez & -> & Hd & He & Hv); [lia |].
    rewrite mul_minus_half by (try exact Hd; lia).
    simpl. now rewrite (Hhalf m mz ez He Hv).
  - destruct (round_int true m) as (mz & ez & -> & Hd & He & Hv); [lia |].
    rewrite mul_minus_half by (try exact Hd; lia).
    simpl. rewrite (Hhalf m mz ez He Hv).
    change (Z.neg m) with (- Z.pos m). rewrite Z.quot_opp_l by lia.
    f_equal. lia.
Qed.

(** The bust of the AI boom on a net worth below [2^53] in magnitude: half
    of it goes, the half rounded toward zero. *)
Lemma boom_bust_halves (r : string) (u : user_state) :
  - 2 ^ 53 < net_worth u < 2 ^ 53 ->
  apply_effect (mkEffect None (Some minus_half) None) r u
    = Some (r, set_net_worth (net_worth u - net_worth u ÷ 2) u).
Proof.
  intros Hn.
  change (apply_effect (mkEffect None (Some minus_half) None) r u)
    with (match int_of_product (net_worth u) minus_half with
          | Some t => Some (r, set_net_worth (net_worth u + t) u)
          | None => None
          end).
  now rewrite (int_of_product_minus_half _ Hn).
Qed.

(** On every outcome of the script the resolver returns, for net worths
    below [2^52] in magnitude. *)
Lemma resolver_returns_on_script (q choice : string) (o : outcome)
    (u : user_state) :
  outcome_at q choice = Some o ->
  - 2 ^ 52 < net_worth u < 2 ^ 52 ->
  exists r u', apply_outcome_and_get_message o u = Some (r, u').
Proof.
  intros Ho Hn. unfold outcome_at in Ho. simpl in Ho.
  repeat match type of Ho with
         | context [String.eqb ?a ?b] => destruct (String.eqb a b); simpl in Ho
         end;
    try discriminate; injection Ho as <-;
    try (apply resolver_returns;
         [ left; discriminate
         | intros ev Hev; vm_compute in Hev;
           first [discriminate | injection Hev as <-; left; discriminate] ]).
  unfold apply_outcome_and_get_message, apply_effects, apply_random_event.
  cbn -[int_of_product apply_effect Z.add].
  change (apply_effect (add_event 3000 "ai_boom_bust")
            "You bet big on AI fashion!" u)
    with (Some ("You bet big on AI fashion!",
                set_net_worth (net_worth u + 3000) u)).
  cbv beta iota. rewrite boom_bust_halves by (simpl; lia).
  apply some_pair.
Qed.

(** C5, as the resolver has it.  A percentage effect (an effect with no
    ["net_worth"] key and a percentage [p]) adds to the net worth the float
    product [net_worth * p] with its fraction dropped, that is rounded
    toward zero: the floor of the product, plus one when the product is
    negative and not an integer. *)
Theorem percentage_effect_rounds_toward_zero (e : effect) (reply : string)
    (u : user_state) (p x : spec_float) (fl : Z) :
  eff_net_worth e = None ->
  eff_net_worth_percentage e = Some p ->
  float_product (net_worth u) p = Some x ->
  float_floor x = Some fl ->
  apply_effect e reply u =
    Some (reply,
          set_net_worth
            (net_worth u + (fl + (if negative_fraction x then 1 else 0))) u).
Proof.
  intros Hn Hp Hx Hfl. unfold apply_effect, int_of_product.
  rewrite Hn, Hp, Hx, (int_of_float_floor x fl Hfl). reflexivity.
Qed.

Lemma percentage_effect_rounds_toward_zero_witness :
  apply_effect (mkEffect None (Some minus_half) None) "" (player 3001 "hustle_q3") =
    Some ("", set_net_worth (3001 + (-1501 + 1)) (player 3001 "hustle_q3")).
Proof.
  apply (percentage_effect_rounds_toward_zero
           (mkEffect None (Some minus_half) None) "" (player 3001 "hustle_q3")
           minus_half (S754_finite true 6599268789911552 (-42)) (-1501)).
  - reflexivity.
  - reflexivity.
  - vm_compute. reflexivity.
  - vm_compute. reflexivity.
Defined.

(** The floor rule fails on the script itself: a player with a net worth
    of 1 who goes all-in at [hustle_q3] holds 3001 when the bubble bursts
    and ends with 1501, where the floor rule gives 1500; and on a negative
    net worth of -3 a percentage of one half gives -4, the floor rule -5. *)
Lemma percentage_effect_is_not_floor :
  (exists o reply u',
     outcome_at "hustle_q3" "1" = Some o /\
     apply_outcome_and_get_message o (player 1 "hustle_q3") = Some (reply, u') /\
     net_worth u' = 1501 /\
     floor_percentage_update 3001 minus_half = Some 1500) /\
  (exists reply u',
     apply_effect (mkEffect None (Some plus_half) None) "" (player (-3) "hustle_q3")
       = Some (reply, u') /\
     net_worth u' = -4 /\
     floor_percentage_update (-3) plus_half = Some (-5)).
Proof.
  split.
  - eexists _, _, _. split; [reflexivity |].
    split; [vm_compute; reflexivity |].
    split; [reflexivity |]. vm_compute. reflexivity.
  - eexists _, _. split; [vm_compute; reflexivity |].
    split; [reflexivity |]. vm_compute. reflexivity.
Qed.

(** ** The users table *)

Lemma int_of_Decimal_of_int (n : Z) : int_of_Decimal (Decimal_of_int n) = n.
Proof. unfold int_of_Decimal, Decimal_of_int. simpl. lia. Qed.

Lemma empty_to_None_default (o : option string) :
  o <> Some "" -> empty_to_None (default "" o) = o.
Proof.
  unfold empty_to_None. destruct o as [s |]; simpl; [| reflexivity].
  intros Hne. destruct (String.eqb_spec s ""); [congruence | reflexivity].
Qed.

(** Decoding what was encoded gives the record back, unless an optional
    field holds the empty string. *)
Lemma item_roundtrip (u : user_state) :
  game u <> Some "" -> current_q u <> Some "" ->
  item_to_state (phoneNumber u) (item_to_save u) = u.
Proof.
  intros Hg Hq. destruct u as [ph g s n d q]. unfold item_to_state, item_to_save.
  simpl in *. rewrite !int_of_Decimal_of_int.
  now rewrite (empty_to_None_default g Hg), (empty_to_None_default q Hq).
Qed.

Lemma stored_after_save (w : world) (t : gmap string db_attrs) (u : user_state) :
  users_table w = Some t ->
  stored (phoneNumber u) (snd (save_user_state u w))
    = Some (item_to_state (phoneNumber u) (item_to_save u)).
Proof.
  intros Ht. unfold stored, save_user_state, get_user_state. rewrite Ht. simpl.
  now rewrite lookup_insert_eq.
Qed.

(** A write the store accepts is the write of [save_user_state]. *)
Lemma save_user_state_accepted (accepts : user_state -> bool) (u : user_state)
    (w : world) :
  accepts u = true -> save_user_state_checked accepts u w = save_user_state u w.
Proof.
  intros Ha. unfold save_user_state_checked, save_user_state. rewrite Ha.
  now destruct (users_table w).
Qed.

(** A write the store refuses leaves everything as it was. *)
Lemma save_user_state_refused (accepts : user_state -> bool) (u : user_state)
    (w : world) :
  accepts u = false -> save_user_state_checked accepts u w = (Some false, w).
Proof.
  intros Ha. unfold save_user_state_checked. rewrite Ha.
  now destruct (users_table w).
Qed.

(** C10, as the helpers have it.  On an initialised table, saving a record
    that the store accepts and whose [game] and [current_q] are not the
    empty string returns True, and reading it back returns an equal record:
    the two integers unchanged, [None] through the empty string back to
    [None].  This holds whatever the store accepts. *)
Theorem save_then_get (accepts : user_state -> bool) (w : world)
    (t : gmap string db_attrs) (u : user_state) :
  users_table w = Some t ->
  accepts u = true ->
  game u <> Some "" -> current_q u <> Some "" ->
  fst (save_user_state_checked accepts u w) = Some true /\
  fst (get_user_state (phoneNumber u)
         (snd (save_user_state_checked accepts u w)))
    = Some (Some u).
Proof.
  intros Ht Hacc Hg Hq. rewrite (save_user_state_accepted accepts u w Hacc).
  split.
  - unfold save_user_state. now rewrite Ht.
  - unfold save_user_state, get_user_state. rewrite Ht. simpl.
    rewrite lookup_insert_eq. simpl. now rewrite item_roundtrip.
Qed.

Lemma save_then_get_witness :
  fst (save_user_state_checked store_accepts (player 5000 "hustle_q2") new_world)
    = Some true /\
  fst (get_user_state "254700000000"
         (snd (save_user_state_checked store_accepts (player 5000 "hustle_q2")
                 new_world)))
    = Some (Some (player 5000 "hustle_q2")).
Proof.
  apply (save_then_get store_accepts new_world ∅ (player 5000 "hustle_q2")).
  - reflexivity.
  - vm_compute. reflexivity.
  - simpl. discriminate.
  - simpl. discriminate.
Defined.

(** A record whose net worth has 41 digits is refused by the store: the
    helper returns False, and reading the record back finds nothing. *)
Lemma oversized_net_worth_is_not_saved :
  exists u : user_state,
    net_worth u = 10 ^ 40 /\
    game u <> Some "" /\ current_q u <> Some "" /\
    store_accepts u = false /\
    fst (save_user_state_checked store_accepts u new_world) = Some false /\
    fst (get_user_state (phoneNumber u)
           (snd (save_user_state_checked store_accepts u new_world)))
      = Some None.
Proof.
  exists (player (10 ^ 40) "hustle_q2").
  split; [reflexivity |].
  split; [discriminate |]. split; [discriminate |].
  split; [vm_compute; reflexivity |].
  split; vm_compute; reflexivity.
Qed.

(** The integers always come back unchanged. *)
Lemma numbers_roundtrip (u : user_state) :
  net_worth (item_to_state (phoneNumber u) (item_to_save u)) = net_worth u /\
  days_survived (item_to_state (phoneNumber u) (item_to_save u)) = days_survived u.
Proof. split; apply int_of_Decimal_of_int. Qed.

(** A record whose game is the empty string would not come back equal: the
    empty string is read as [None]. *)
Lemma empty_game_read_back_as_None :
  exists u u' : user_state,
    game u = Some "" /\
    fst (get_user_state (phoneNumber u)
           (snd (save_user_state u (mkWorld (Some ∅) true []))))
      = Some (Some u') /\
    game u' = None /\ u' <> u.
Proof.
  exists (mkState "254700000000" (Some "") "alive" 0 0 None).
  eexists. split; [reflexivity |].
  split.
  - unfold save_user_state, get_user_state. simpl.
    rewrite lookup_insert_eq. reflexivity.
  - split; [reflexivity | discriminate].
Qed.

(** ** The turn orchestrator *)

Lemma nonempty_iff (s : string) : nonempty s = true <-> s <> "".
Proof.
  unfold nonempty. destruct (String.eqb_spec s ""); simpl; split;
    congruence.
Qed.

(** A message with a sender and a non-blank text reaches [handle_turn] with
    the text trimmed and upper-cased. *)
Lemma handler_dispatch (sender raw text : string) (w : world) :
  sender <> "" -> upper (strip raw) = text -> text <> "" ->
  inbound_sms_handler (sms sender raw) w
    = handle_turn sender (db_key sender) text w.
Proof.
  intros Hs Ht Hne. unfold inbound_sms_handler, sms. simpl. rewrite Ht.
  apply nonempty_iff in Hs, Hne. now rewrite Hs, Hne.
Qed.

(** The same for any normalisation of the text. *)
Lemma handler_on_dispatch (normalise : string -> string)
    (sender raw text : string) (w : world) :
  sender <> "" -> normalise raw = text -> text <> "" ->
  inbound_sms_handler_on normalise (sms sender raw) w
    = handle_turn sender (db_key sender) text w.
Proof.
  intros Hs Ht Hne. unfold inbound_sms_handler_on, sms. simpl. rewrite Ht.
  apply nonempty_iff in Hs, Hne. now rewrite Hs, Hne.
Qed.

(** The three services in normal form. *)
Lemma get_user_state_eq (k : string) (w : world) (t : gmap string db_attrs) :
  users_table w = Some t ->
  get_user_state k w = (Some (item_to_state k <$> t !! k), w).
Proof. intros Ht. unfold get_user_state. now rewrite Ht. Qed.

Lemma save_user_state_eq (u : user_state) (w : world) (t : gmap string db_attrs) :
  users_table w = Some t ->
  save_user_state u w =
    (Some true,
     mkWorld (Some (<[phoneNumber u := item_to_save u]> t)) (sms_service w)
             (io_log w ++ [PutItem (phoneNumber u) (item_to_save u)])).
Proof. intros Ht. unfold save_user_state. now rewrite Ht. Qed.

Lemma send_sms_reply_eq (recipient text : string) (w : world) :
  send_sms_reply recipient text w =
    (Some tt,
     mkWorld (users_table w) (sms_service w) (io_log w ++ sent w recipient text)).
Proof.
  unfold send_sms_reply, sent. destruct w as [t [] l]; simpl; [reflexivity |].
  now rewrite app_nil_r.
Qed.

Lemma stored_eq (k : string) (w : world) (t : gmap string db_attrs) :
  users_table w = Some t -> stored k w = item_to_state k <$> t !! k.
Proof. intros Ht. unfold stored. now rewrite (get_user_state_eq k w t Ht). Qed.

(** *** Case folding and trimming *)








(** *** Reset *)



(** *** Turns of a known player *)

Lemma clamp_set_net_worth (u : user_state) (m : Z) :
  status u = "alive" ->
  clamp (set_net_worth m u) = set_net_worth (Z.max 0 m) u.
Proof.
  intros Ha. unfold clamp, is_alive. simpl. rewrite Ha. simpl.
  destruct (Z.ltb_spec m 0); unfold set_net_worth; simpl; f_equal; lia.
Qed.

(** A living player at a node with an outcome table who sends a valid
    choice: the record after the outcome is written, then the reply sent. *)
Lemma question_turn_choice (sender text : string) (u u1 u' : user_state)
    (w : world) (t : gmap string db_attrs) (p : prompt)
    (table : list (string * outcome)) (o : outcome) (r r' : string) :
  users_table w = Some t ->
  game_data_get (current_q u) = Some (Prompt p) ->
  p_outcomes p = Some table ->
  is_choice text = true ->
  dict_get table text = Some o ->
  apply_outcome_and_get_message o u = Some (r, u1) ->
  prompt_next r u1 = Some (r', u') ->
  question_turn sender text u w =
    (Some (ok "SMS received and processed successfully!"),
     mkWorld (Some (<[phoneNumber u' := item_to_save u']> t)) (sms_service w)
             (io_log w ++ PutItem (phoneNumber u') (item_to_save u')
                :: sent w sender r')).
Proof.
  intros Ht Hd Hp Hc Ho Ha Hn. unfold question_turn.
  rewrite Hd. simpl. rewrite Hp, Hc, Ho, Ha, Hn. run_monad. simpl.
  rewrite (save_user_state_eq u' w t Ht). simpl.
  rewrite send_sms_reply_eq. simpl. unfold sent. simpl.
  now rewrite <- app_assoc.
Qed.

(** The same player sending anything but 1, 2 or 3: only a re-prompt. *)
Lemma question_turn_other (sender text : string) (u : user_state) (w : world)
    (p : prompt) (table : list (string * outcome)) :
  game_data_get (current_q u) = Some (Prompt p) ->
  p_outcomes p = Some table ->
  is_choice text = false ->
  question_turn sender text u w =
    (Some (ok "SMS received and processed successfully!"),
     mkWorld (users_table w) (sms_service w)
             (io_log w
                ++ sent w sender
                     ("I don't understand that. Please choose an option (1, 2, 3) or reply RESTART."
                        +:+ LF +:+ join_lines (p_options p)))).
Proof.
  intros Hd Hp Hc. unfold question_turn, reprompt_options.
  rewrite Hd. simpl. rewrite Hp, Hc. run_monad. simpl.
  now rewrite send_sms_reply_eq.
Qed.

(** The first outcome of [hustle_q2] and the event it triggers. *)
Lemma lend_money_effects (u : user_state) :
  apply_effects
    (mkOutcome (add_event (-2000) "ghosted")
       "You lent the money. Fingers crossed!" None) u
  = Some ("You lent the money. Fingers crossed!" +:+ LF
            +:+ "Oh no! Your cousin ghosted you! That KES 2000 is gone forever. (-KES 2000)",
          set_net_worth (net_worth u - 2000 - 2000) u,
          Some "hustle_q3").
Proof. reflexivity. Qed.

Section KnownPlayer.

Variables (w : world) (t : gmap string db_attrs) (sender : string)
  (it : db_attrs).
Hypothesis table_ready : users_table w = Some t.
Hypothesis record_found : t !! db_key sender = Some it.

Lemma loaded_phone : phoneNumber (loaded sender it) = db_key sender.
Proof. reflexivity. Qed.

(** The turn starts from the record under the sender's key. *)
Lemma handle_turn_loaded (text : string) :
  text <> "RESTART" ->
  handle_turn sender (db_key sender) text w =
    match game (loaded sender it) with
    | None => game_selection sender text (loaded sender it) w
    | Some g =>
        if String.eqb g "hustle" && is_alive (loaded sender it) then
          if bool_decide (current_q (loaded sender it) = Some "hustle_intro") then
            match intro_turn text (loaded sender it) with
            | Some (reply_message, u') =>
                (Some (ok "Hustle intro choice processed."),
                 mkWorld (Some (<[phoneNumber u' := item_to_save u']> t))
                         (sms_service w)
                         (io_log w ++ PutItem (phoneNumber u') (item_to_save u')
                            :: sent w sender reply_message))
            | None => (None, w)
            end
          else question_turn sender text (loaded sender it) w
        else
          (Some (ok "SMS received and processed successfully!"),
           mkWorld (users_table w) (sms_service w)
                   (io_log w ++ sent w sender ""))
    end.
Proof.
  intros Hr. unfold handle_turn. run_monad.
  rewrite (get_user_state_eq _ w t table_ready), record_found.
  change (item_to_state (db_key sender) <$> Some it)
    with (Some (loaded sender it)).
  generalize (loaded sender it) as u. intros u. simpl.
  apply String.eqb_neq in Hr. rewrite Hr.
  destruct (game u) as [g |]; [| reflexivity].
  destruct (String.eqb g "hustle" && is_alive u).
  - destruct (bool_decide (current_q u = Some "hustle_intro"));
      [| reflexivity].
    destruct (intro_turn text u) as [[r u'] |]; [| reflexivity].
    rewrite (save_user_state_eq u' w t table_ready). simpl.
    rewrite send_sms_reply_eq. simpl. unfold sent. simpl.
    now rewrite <- app_assoc.
  - now rewrite send_sms_reply_eq.
Qed.

(** C6, as the orchestrator has it.  A living hustle player sends a text
    that, normalised, is neither empty nor RESTART nor 1, 2 or 3.  At the
    intro node the reply re-prompts with the intro options and the record,
    unchanged, is written once; at any other node that has an outcome table
    the reply re-prompts with that node's options, the table is left as it
    was and nothing is written.  The normalisation is any function: the
    text is classified by what [text.strip().upper()] returns. *)
Theorem invalid_choice_reprompts (normalise : string -> string)
    (raw text : string) :
  sender <> "" ->
  normalise raw = text -> text <> "" -> text <> "RESTART" ->
  is_choice text = false ->
  game (loaded sender it) = Some "hustle" ->
  status (loaded sender it) = "alive" ->
  (current_q (loaded sender it) = Some "hustle_intro" ->
     fst (inbound_sms_handler_on normalise (sms sender raw) w)
       = Some (ok "Hustle intro choice processed.") /\
     users_table (snd (inbound_sms_handler_on normalise (sms sender raw) w))
       = Some (<[db_key sender := item_to_save (loaded sender it)]> t) /\
     io_log (snd (inbound_sms_handler_on normalise (sms sender raw) w))
       = io_log w
         ++ PutItem (db_key sender) (item_to_save (loaded sender it))
         :: sent w sender
              ("Please choose a valid option (1, 2, or 3) to start your hustle."
                 +:+ LF +:+ intro_options)) /\
  (forall (q : string) (p : prompt) (table : list (string * outcome)),
     current_q (loaded sender it) = Some q -> q <> "hustle_intro" ->
     dict_get GAME_DATA q = Some (Prompt p) -> p_outcomes p = Some table ->
     fst (inbound_sms_handler_on normalise (sms sender raw) w)
       = Some (ok "SMS received and processed successfully!") /\
     users_table (snd (inbound_sms_handler_on normalise (sms sender raw) w))
       = users_table w /\
     io_log (snd (inbound_sms_handler_on normalise (sms sender raw) w))
       = io_log w
         ++ sent w sender
              ("I don't understand that. Please choose an option (1, 2, 3) or reply RESTART."
                 +:+ LF +:+ join_lines (p_options p))).
Proof.
  intros Hs Hn Hne Hr Hc Hg Ha.
  rewrite (handler_on_dispatch normalise sender raw text w Hs Hn Hne).
  rewrite (handle_turn_loaded text Hr), Hg.
  pose proof loaded_phone as Hph.
  set (u := loaded sender it) in *. clearbody u.
  apply is_alive_iff in Ha. rewrite Ha. simpl. split.
  - intros Hq. rewrite bool_decide_eq_true_2 by exact Hq.
    unfold intro_turn. rewrite Hc, Hph. simpl.
    split; [reflexivity | split; reflexivity].
  - intros q p table Hq Hqne Hd Hp.
    rewrite bool_decide_eq_false_2 by (rewrite Hq; congruence).
    rewrite (question_turn_other sender text _ w p table); [| | exact Hp | exact Hc].
    + split; [reflexivity | split; reflexivity].
    + rewrite Hq. exact Hd.
Qed.

(** C7, as the orchestrator has it.  A living hustle player at [hustle_q2]
    sends 1.  The outcome takes 2000 and the [ghosted] event a further 2000,
    and the event's next state replaces the outcome's [None]; the record
    written and read back has the net worth lowered by 4000 but not below
    zero, and [hustle_q3] as its current node, provided the lowered net
    worth is below the goal. *)
Theorem lend_money_turn (raw : string) :
  sender <> "" ->
  upper (strip raw) = "1" ->
  game (loaded sender it) = Some "hustle" ->
  status (loaded sender it) = "alive" ->
  current_q (loaded sender it) = Some "hustle_q2" ->
  net_worth (loaded sender it) - 4000 < HUSTLE_GOAL ->
  (exists (o : outcome) (reply : string),
     outcome_at "hustle_q2" "1" = Some o /\
     out_next_state o = None /\
     apply_effects o (loaded sender it)
       = Some (reply,
               set_net_worth (net_worth (loaded sender it) - 2000 - 2000)
                 (loaded sender it),
               Some "hustle_q3")) /\
  fst (inbound_sms_handler (sms sender raw) w)
    = Some (ok "SMS received and processed successfully!") /\
  stored (db_key sender) (snd (inbound_sms_handler (sms sender raw) w))
    = Some (set_current_q (Some "hustle_q3")
              (set_net_worth (Z.max 0 (net_worth (loaded sender it) - 4000))
                 (loaded sender it))).
Proof.
  intros Hs Hn Hg Ha Hq Hlt. split.
  - eexists _, _. split; [reflexivity |]. split; [reflexivity |].
    apply lend_money_effects.
  - rewrite (handler_dispatch sender raw "1" w Hs Hn) by discriminate.
    rewrite (handle_turn_loaded "1") by discriminate. rewrite Hg.
    pose proof loaded_phone as Hph.
    set (u := loaded sender it) in *. clearbody u.
    pose proof Ha as Hal. apply is_alive_iff in Hal. rewrite Hal. simpl.
    rewrite bool_decide_eq_false_2 by (rewrite Hq; congruence).
    set (u' := set_current_q (Some "hustle_q3")
                 (set_net_worth (Z.max 0 (net_worth u - 4000)) u)).
    assert (Hres : apply_outcome_and_get_message
                     (mkOutcome (add_event (-2000) "ghosted")
                        "You lent the money. Fingers crossed!" None) u
                   = Some ("You lent the money. Fingers crossed!" +:+ LF
                             +:+ "Oh no! Your cousin ghosted you! That KES 2000 is gone forever. (-KES 2000)",
                           u')).
    { unfold apply_outcome_and_get_message. rewrite lend_money_effects.
      rewrite (clamp_set_net_worth u _ Ha).
      rewrite check_win_continue;
        [| exact Ha | unfold HUSTLE_GOAL in *; simpl; lia].
      unfold u'. replace (net_worth u - 2000 - 2000) with (net_worth u - 4000)
        by lia.
      reflexivity. }
    assert (Hnext : prompt_next
                      ("You lent the money. Fingers crossed!" +:+ LF
                         +:+ "Oh no! Your cousin ghosted you! That KES 2000 is gone forever. (-KES 2000)")
                      u' = Some (next_prompt_text u', u')).
    { unfold prompt_next, is_alive. unfold u' at 1 2. simpl. rewrite Ha.
      reflexivity. }
    assert (Hd : game_data_get (current_q u) = Some (Prompt hustle_q2))
      by (rewrite Hq; reflexivity).
    rewrite (question_turn_choice sender "1" u u' u' w t hustle_q2 _ _ _ _
               table_ready Hd eq_refl eq_refl eq_refl Hres Hnext).
    split; [reflexivity |].
    erewrite stored_eq by reflexivity.
    replace (db_key sender) with (phoneNumber u') by (unfold u'; exact Hph).
    rewrite lookup_insert_eq.
    change (Some (item_to_state (phoneNumber u') (item_to_save u')) = Some u').
    rewrite item_roundtrip; [reflexivity | |].
    + unfold u'. simpl. rewrite Hg. discriminate.
    + unfold u'. simpl. discriminate.
Qed.

(** C8, as the orchestrator has it.  A dead player sends a text that,
    normalised, is neither empty nor RESTART.  With no game on the record
    (as every way of dying leaves it) and a text that does not pick the
    hustle game, the table is left as it was, nothing is written, and the
    reply is the not-ready notice when the text picks the other game and
    the welcome menu otherwise.  With a game on the record the table is left
    as it was and the reply is the empty text.  The normalisation is any
    function: the text is classified by what [text.strip().upper()]
    returns. *)
Theorem dead_player_turn (normalise : string -> string) (raw text : string) :
  sender <> "" ->
  normalise raw = text -> text <> "" -> text <> "RESTART" ->
  status (loaded sender it) = "dead" ->
  (game (loaded sender it) = None -> is_hustle_choice text = false ->
     fst (inbound_sms_handler_on normalise (sms sender raw) w)
       = Some (ok "Game selection handled.") /\
     users_table (snd (inbound_sms_handler_on normalise (sms sender raw) w))
       = users_table w /\
     io_log (snd (inbound_sms_handler_on normalise (sms sender raw) w))
       = io_log w
         ++ sent w sender
              (if is_perish_choice text then
                 "Pick Up or Perish is not ready yet. Try Choose Your Hustle (reply 1)."
               else "Welcome! " +:+ menu)) /\
  (forall g : string, game (loaded sender it) = Some g ->
     fst (inbound_sms_handler_on normalise (sms sender raw) w)
       = Some (ok "SMS received and processed successfully!") /\
     users_table (snd (inbound_sms_handler_on normalise (sms sender raw) w))
       = users_table w /\
     io_log (snd (inbound_sms_handler_on normalise (sms sender raw) w))
       = io_log w ++ sent w sender "").
Proof.
  intros Hs Hn Hne Hr Hd.
  rewrite (handler_on_dispatch normalise sender raw text w Hs Hn Hne).
  rewrite (handle_turn_loaded text Hr).
  set (u := loaded sender it) in *. clearbody u. split.
  - intros Hg Hh. rewrite Hg. unfold game_selection. rewrite Hh. run_monad.
    destruct (is_perish_choice text); rewrite send_sms_reply_eq; simpl;
      (split; [reflexivity | split; reflexivity]).
  - intros g Hg. rewrite Hg.
    assert (Hna : is_alive u = false).
    { apply is_alive_false. rewrite Hd. discriminate. }
    rewrite Hna, andb_false_r. simpl.
    split; [reflexivity | split; reflexivity].
Qed.

End KnownPlayer.

(** *** The theorems at concrete turns *)

Lemma invalid_choice_reprompts_witness :
  fst (inbound_sms_handler (sms "+254700000000" "maybe")
         (world_of (player 5000 "hustle_q2")))
    = Some (ok "SMS received and processed successfully!") /\
  users_table
    (snd (inbound_sms_handler (sms "+254700000000" "maybe")
            (world_of (player 5000 "hustle_q2"))))
    = users_table (world_of (player 5000 "hustle_q2")) /\
  io_log
    (snd (inbound_sms_handler (sms "+254700000000" "maybe")
            (world_of (player 5000 "hustle_q2"))))
    = io_log (world_of (player 5000 "hustle_q2"))
      ++ sent (world_of (player 5000 "hustle_q2")) "+254700000000"
           ("I don't understand that. Please choose an option (1, 2, 3) or reply RESTART."
              +:+ LF +:+ join_lines (p_options hustle_q2)).
Proof.
  assert (Hfound : table_of (player 5000 "hustle_q2") !! db_key "+254700000000"
                   = Some (item_to_save (player 5000 "hustle_q2")))
    by (vm_compute; reflexivity).
  refine (proj2 (invalid_choice_reprompts
                   (world_of (player 5000 "hustle_q2"))
                   (table_of (player 5000 "hustle_q2"))
                   "+254700000000"
                   (item_to_save (player 5000 "hustle_q2"))
                   eq_refl Hfound (fun raw => upper (strip raw))
                   "maybe" "MAYBE" _ _ _ _ _ _ _)
            "hustle_q2" hustle_q2 _ _ _ _ _);
    first [reflexivity | discriminate].
Defined.

Lemma lend_money_turn_witness :
  stored "254700000000"
    (snd (inbound_sms_handler (sms "+254700000000" "1")
            (world_of (player 5000 "hustle_q2"))))
  = Some (player 1000 "hustle_q3").
Proof.
  assert (Hfound : table_of (player 5000 "hustle_q2") !! db_key "+254700000000"
                   = Some (item_to_save (player 5000 "hustle_q2")))
    by (vm_compute; reflexivity).
  refine (proj2 (proj2 (lend_money_turn
                          (world_of (player 5000 "hustle_q2"))
                          (table_of (player 5000 "hustle_q2"))
                          "+254700000000"
                          (item_to_save (player 5000 "hustle_q2"))
                          eq_refl Hfound "1" _ _ _ _ _ _)));
    first [reflexivity | discriminate | (unfold HUSTLE_GOAL; simpl; lia)].
Defined.

Lemma dead_player_turn_witness :
  fst (inbound_sms_handler (sms "+254700000000" "anything")
         (world_of (kill (player 10500 "hustle_q4"))))
    = Some (ok "Game selection handled.") /\
  users_table
    (snd (inbound_sms_handler (sms "+254700000000" "anything")
            (world_of (kill (player 10500 "hustle_q4")))))
    = users_table (world_of (kill (player 10500 "hustle_q4"))) /\
  io_log
    (snd (inbound_sms_handler (sms "+254700000000" "anything")
            (world_of (kill (player 10500 "hustle_q4")))))
    = [SendSms "+254700000000" ("Welcome! " +:+ menu)].
Proof.
  assert (Hfound : table_of (kill (player 10500 "hustle_q4"))
                     !! db_key "+254700000000"
                   = Some (item_to_save (kill (player 10500 "hustle_q4"))))
    by (vm_compute; reflexivity).
  refine (proj1 (dead_player_turn
                   (world_of (kill (player 10500 "hustle_q4")))
                   (table_of (kill (player 10500 "hustle_q4")))
                   "+254700000000"
                   (item_to_save (kill (player 10500 "hustle_q4")))
                   eq_refl Hfound (fun raw => upper (strip raw))
                   "anything" "ANYTHING" _ _ _ _ _) _ _);
    first [reflexivity | discriminate].
Defined.

(** At the intro node an invalid text is answered and the record is
    written all the same: the trace of the turn holds a [PutItem]. *)
Lemma invalid_intro_choice_is_written :
  is_choice (upper (strip "9")) = false /\
  exists reply : string,
    io_log (snd (inbound_sms_handler (sms "+254700000000" "9")
                   (world_of (player 0 "hustle_intro"))))
    = [PutItem "254700000000" (item_to_save (player 0 "hustle_intro"));
       SendSms "+254700000000" reply] /\
    contains intro_options reply.
Proof.
  split; [reflexivity |].
  exists ("Please choose a valid option (1, 2, or 3) to start your hustle."
            +:+ LF +:+ intro_options).
  split; [vm_compute; reflexivity |].
  exists ("Please choose a valid option (1, 2, or 3) to start your hustle."
            +:+ LF), "".
  vm_compute. reflexivity.
Qed.

(** A player at [hustle_q2] with nothing sends 1: the record read back
    holds 0, not 4000 less than before. *)
Lemma lend_money_from_nothing :
  exists r : user_state,
    stored "254700000000"
      (snd (inbound_sms_handler (sms "+254700000000" "1")
              (world_of (player 0 "hustle_q2")))) = Some r /\
    current_q r = Some "hustle_q3" /\
    net_worth r = 0 /\
    net_worth r <> net_worth (player 0 "hustle_q2") - 4000.
Proof.
  eexists. split; [vm_compute; reflexivity |].
  split; [reflexivity |]. split; [reflexivity |]. simpl. lia.
Qed.

(** The player of the winning scenario (2500 at [hustle_q4], sends 1) is
    dead with no game.  A further message that is neither the reset command
    nor a game selection leaves the record as it was, and the reply is the
    welcome menu, not the empty text. *)
Lemma dead_player_is_shown_the_menu :
  exists (before : user_state) (reply : string),
    let w1 := run_turns [sms "+254700000000" "1"]
                (world_of (player 2500 "hustle_q4")) in
    let w2 := run_turns [sms "+254700000000" "anything"] w1 in
    stored "254700000000" w1 = Some before /\
    status before = "dead" /\ game before = None /\
    stored "254700000000" w2 = Some before /\
    users_table w2 = users_table w1 /\
    last (io_log w2) = Some (SendSms "+254700000000" reply) /\
    reply = "Welcome! " +:+ menu /\
    reply <> "".
Proof.
  eexists _, _. simpl.
  split; [vm_compute; reflexivity |].
  split; [reflexivity |]. split; [reflexivity |].
  split; [vm_compute; reflexivity |].
  split; [vm_compute; reflexivity |].
  split; [vm_compute; reflexivity |].
  split; [vm_compute; reflexivity | discriminate].
Qed.

(** C4 fails on the code.  A new player picks the game, plays 1, 3, 3 and
    then 2 at [hustle_q4]: the market crash leaves the record dead with
    neither game nor current node.  A further 1 is taken as a game
    selection: the record written is still dead, but holds the game
    [hustle] and the node [hustle_intro]. *)
Theorem dead_record_regains_game :
  stored "254700000000"
    (run_turns (map (sms "+254700000000") ["1"; "1"; "3"; "3"; "2"]) new_world)
    = Some (mkState "254700000000" None "dead" 3000 0 None) /\
  stored "254700000000"
    (run_turns (map (sms "+254700000000") ["1"; "1"; "3"; "3"; "2"; "1"])
       new_world)
    = Some (mkState "254700000000" (Some "hustle") "dead" 3000 0
              (Some "hustle_intro")).
Proof. split; vm_compute; reflexivity. Qed.

(** * Further properties of the handler *)

(** ** The resolver, whatever the outcome *)

Lemma apply_effect_form (e : effect) (r r' : string) (u u' : user_state) :
  apply_effect e r u = Some (r', u') ->
  u' = kill u \/ exists n, u' = set_net_worth n u.
Proof.
  unfold apply_effect.
  destruct (eff_net_worth e) as [[d |] |].
  - intros [= <- <-]. right. eauto.
  - intros [= <- <-]. now left.
  - destruct (eff_net_worth_percentage e) as [p |].
    + destruct (int_of_product (net_worth u) p) as [t |]; [| discriminate].
      intros [= <- <-]. right. eauto.
    + intros [= <- <-]. right. exists (net_worth u). now destruct u.
Qed.

(** After the effects the record is the input with another net worth,
    killed or not. *)
Lemma apply_effects_form (o : outcome) (u u1 : user_state) (r : string)
    (nq : option string) :
  apply_effects o u = Some (r, u1, nq) ->
  nq = pending_next o /\
  exists n, u1 = set_net_worth n u \/ u1 = kill (set_net_worth n u).
Proof.
  unfold apply_effects, apply_random_event, pending_next, triggered_event.
  destruct (apply_effect (out_effect o) (out_message o) u)
    as [[r0 u0] |] eqn:H0; [| discriminate].
  assert (F0 : exists n, u0 = set_net_worth n u \/ u0 = kill (set_net_worth n u)).
  { destruct (apply_effect_form _ _ _ _ _ H0) as [-> | [n ->]].
    - exists (net_worth u). right. reflexivity.
    - exists n. now left. }
  destruct (eff_random_event (out_effect o)) as [k |];
    [| intros [= <- <- <-]; split; [reflexivity | exact F0]].
  destruct (dict_get RANDOM_EVENTS k) as [ev |];
    [| intros [= <- <- <-]; split; [reflexivity | exact F0]].
  destruct (apply_effect (ev_effect ev) (r0 +:+ LF +:+ ev_message ev) u0)
    as [[r2 u2] |] eqn:H2; [| discriminate].
  intros [= <- <- <-]. split; [reflexivity |].
  destruct F0 as [n0 F0].
  destruct (apply_effect_form _ _ _ _ _ H2) as [-> | [n ->]].
  - exists n0. right. destruct F0 as [-> | ->]; reflexivity.
  - exists n. destruct F0 as [-> | ->]; [now left | now right].
Qed.

(** The three shapes of a record the resolver returns: a record that was
    not alive with only its net worth touched; a killed record; a living
    record moved to its next node with a net worth inside the game's range. *)
Lemma resolver_result_form (o : outcome) (u u' : user_state) (r : string) :
  apply_outcome_and_get_message o u = Some (r, u') ->
  (status u <> "alive" /\ exists n, u' = set_net_worth n u)
  \/ (exists n, u' = kill (set_net_worth n u))
  \/ (status u = "alive" /\
      exists n, 0 <= n < HUSTLE_GOAL /\
        u' = set_current_q (Some (next_or_intro (pending_next o)))
               (set_net_worth n u)).
Proof.
  unfold apply_outcome_and_get_message.
  destruct (apply_effects o u) as [[[r1 u1] nq] |] eqn:He; [| discriminate].
  destruct (apply_effects_form _ _ _ _ _ He) as [-> [n Hn]].
  intros [= Hc]. revert Hc. destruct Hn as [-> | ->].
  - destruct (String.eqb_spec (status u) "alive") as [Ha | Ha].
    + rewrite (clamp_set_net_worth u n Ha).
      destruct (Z.lt_ge_cases (Z.max 0 n) HUSTLE_GOAL) as [Hlt | Hge].
      * rewrite check_win_continue by assumption.
        intros [= <- <-]. right. right. split; [exact Ha |].
        exists (Z.max 0 n). split; [lia | reflexivity].
      * rewrite check_win_goal by assumption.
        intros [= <- <-]. right. left. eauto.
    + assert (Hc : clamp (set_net_worth n u) = set_net_worth n u).
      { unfold clamp, is_alive. simpl.
        apply String.eqb_neq in Ha. now rewrite Ha. }
      rewrite Hc, check_win_dead by exact Ha.
      intros [= <- <-]. left. split; [exact Ha | eauto].
  - change (clamp (kill (set_net_worth n u))) with (kill (set_net_worth n u)).
    rewrite check_win_dead by discriminate.
    intros [= <- <-]. right. left. eauto.
Qed.

(** X1. The resolver leaves the phone number and the days survived alone,
    never revives a record (the status is kept or becomes dead) and never
    sets a game (the game is kept or becomes [None]). *)
Theorem resolver_frame (o : outcome) (u u' : user_state) (r : string) :
  apply_outcome_and_get_message o u = Some (r, u') ->
  phoneNumber u' = phoneNumber u /\
  days_survived u' = days_survived u /\
  (status u' = status u \/ status u' = "dead") /\
  (game u' = game u \/ game u' = None).
Proof.
  intros H.
  destruct (resolver_result_form o u u' r H)
    as [[_ [n ->]] | [[n ->] | [_ [n [_ ->]]]]]; simpl; auto.
Qed.

Lemma resolver_frame_witness :
  phoneNumber (player 1000 "hustle_q3") = phoneNumber (player 5000 "hustle_q2").
Proof.
  apply (resolver_frame
           (mkOutcome (add_event (-2000) "ghosted")
              "You lent the money. Fingers crossed!" None)
           (player 5000 "hustle_q2") (player 1000 "hustle_q3")
           ("You lent the money. Fingers crossed!" +:+ LF
              +:+ "Oh no! Your cousin ghosted you! That KES 2000 is gone forever. (-KES 2000)")).
  reflexivity.
Defined.

Lemma next_or_intro_nonempty (nq : option string) : next_or_intro nq <> "".
Proof.
  unfold next_or_intro. destruct nq as [k |]; [| discriminate].
  unfold nonempty. destruct (String.eqb_spec k ""); simpl;
    [discriminate | assumption].
Qed.

(** X2. A record returned alive was alive, keeps its game, and always
    stands on a node with a non-empty key: the pending next state (the
    triggered event's when the event defines one, else the outcome's), and
    [hustle_intro] when that is [None] or empty. *)
Theorem alive_result_stands_on_node (o : outcome) (u u' : user_state)
    (r : string) :
  apply_outcome_and_get_message o u = Some (r, u') ->
  status u' = "alive" ->
  status u = "alive" /\ game u' = game u /\
  current_q u' = Some (next_or_intro (pending_next o)) /\
  next_or_intro (pending_next o) <> "".
Proof.
  intros H Ha.
  destruct (resolver_result_form o u u' r H)
    as [[Hd [n ->]] | [[n ->] | [Hu [n [_ ->]]]]]; simpl in *.
  - contradiction.
  - discriminate.
  - repeat split; try assumption. apply next_or_intro_nonempty.
Qed.

Lemma alive_result_stands_on_node_witness :
  current_q (player 1000 "hustle_q3")
    = Some (next_or_intro
              (pending_next
                 (mkOutcome (add_event (-2000) "ghosted")
                    "You lent the money. Fingers crossed!" None))).
Proof.
  apply (alive_result_stands_on_node
           (mkOutcome (add_event (-2000) "ghosted")
              "You lent the money. Fingers crossed!" None)
           (player 5000 "hustle_q2") (player 1000 "hustle_q3")
           ("You lent the money. Fingers crossed!" +:+ LF
              +:+ "Oh no! Your cousin ghosted you! That KES 2000 is gone forever. (-KES 2000)")).
  - reflexivity.
  - reflexivity.
Defined.

(** X3. The resolver does not read the current node of a living player:
    the reply and the returned record are the same whatever node the
    record stood on. *)
Theorem resolver_ignores_current_q (o : outcome) (u : user_state)
    (q : option string) :
  status u = "alive" ->
  apply_outcome_and_get_message o (set_current_q q u)
    = apply_outcome_and_get_message o u.
Proof.
  intros Ha. apply is_alive_iff in Ha. unfold is_alive in Ha.
  unfold apply_outcome_and_get_message, apply_effects, apply_random_event,
    apply_effect, check_win, clamp, is_alive.
  destruct (eff_net_worth (out_effect o)) as [[d |] |];
    [| | destruct (eff_net_worth_percentage (out_effect o)) as [p |];
         [simpl net_worth; destruct (int_of_product (net_worth u) p) |]];
    try reflexivity;
    (destruct (eff_random_event (out_effect o)) as [k |];
     [destruct (dict_get RANDOM_EVENTS k) as [ev |];
      [destruct (eff_net_worth (ev_effect ev)) as [[d' |] |];
       [| | destruct (eff_net_worth_percentage (ev_effect ev)) as [p' |];
            [simpl net_worth;
             match goal with
             | |- context [int_of_product ?n p'] =>
                 destruct (int_of_product n p')
             end |]] | ] | ]);
    try reflexivity; simpl; rewrite ?Ha; simpl;
    repeat match goal with
           | |- context [Z.ltb ?a ?b] => destruct (Z.ltb a b); simpl
           | |- context [Z.leb ?a ?b] => destruct (Z.leb a b); simpl
           end;
    rewrite ?Ha; reflexivity.
Qed.

Lemma resolver_ignores_current_q_witness :
  apply_outcome_and_get_message
    (mkOutcome (add 5000)
       "You blindly took the deal! It paid off big time! (+KES 5000)"
       (Some "hustle_q2"))
    (set_current_q (Some "hustle_q1") (player 0 "hustle_intro"))
  = apply_outcome_and_get_message
      (mkOutcome (add 5000)
         "You blindly took the deal! It paid off big time! (+KES 5000)"
         (Some "hustle_q2"))
      (player 0 "hustle_intro").
Proof.
  apply (resolver_ignores_current_q _ (player 0 "hustle_intro")
           (Some "hustle_q1")).
  reflexivity.
Defined.

(** X4. Elimination, by the outcome itself or by the event it triggers,
    always returns the record dead, with neither game nor current node,
    whatever the other effect did. *)
Theorem elimination_kills (o : outcome) (u u' : user_state) (r : string) :
  apply_outcome_and_get_message o u = Some (r, u') ->
  eliminates (out_effect o)
  \/ (exists ev, triggered_event o = Some ev /\ eliminates (ev_effect ev)) ->
  status u' = "dead" /\ game u' = None /\ current_q u' = None.
Proof.
  intros Hret Hdie.
  assert (He : exists r1 u1 nq,
             apply_effects o u = Some (r1, u1, nq) /\ status u1 = "dead"
             /\ game u1 = None /\ current_q u1 = None).
  { unfold apply_outcome_and_get_message in Hret.
    destruct (apply_effects o u) as [[[r1 u1] nq] |] eqn:He; [| discriminate].
    exists r1, u1, nq. split; [reflexivity |].
    unfold apply_effects, apply_random_event in He.
    unfold triggered_event in Hdie.
    destruct (apply_effect (out_effect o) (out_message o) u)
      as [[r0 u0] |] eqn:H0; [| discriminate].
    destruct (eff_random_event (out_effect o)) as [k |].
    - destruct (dict_get RANDOM_EVENTS k) as [ev |].
      + destruct (apply_effect (ev_effect ev) (r0 +:+ LF +:+ ev_message ev) u0)
          as [[r2 u2] |] eqn:H2; [| discriminate].
        injection He as <- <- <-.
        destruct Hdie as [Hdie | (ev' & [= <-] & Hdie)].
        * rewrite (apply_effect_die _ _ _ Hdie) in H0. injection H0 as <- <-.
          destruct (apply_effect_form _ _ _ _ _ H2) as [-> | [n ->]];
            repeat split.
        * rewrite (apply_effect_die _ _ _ Hdie) in H2. injection H2 as <- <-.
          repeat split.
      + injection He as <- <- <-.
        destruct Hdie as [Hdie | (ev' & Hev & _)]; [| discriminate].
        rewrite (apply_effect_die _ _ _ Hdie) in H0. injection H0 as <- <-.
        repeat split.
    - injection He as <- <- <-.
      destruct Hdie as [Hdie | (ev' & Hev & _)]; [| discriminate].
      rewrite (apply_effect_die _ _ _ Hdie) in H0. injection H0 as <- <-.
      repeat split. }
  destruct He as (r1 & u1 & nq & He & Hs & Hg & Hq).
  rewrite (resolver_dead o u u1 r1 nq He Hs) in Hret.
  injection Hret as <- <-. auto.
Qed.

Lemma elimination_kills_witness :
  status (kill (player 3000 "hustle_q4")) = "dead" /\
  game (kill (player 3000 "hustle_q4")) = None /\
  current_q (kill (player 3000 "hustle_q4")) = None.
Proof.
  apply (elimination_kills
           (mkOutcome (add_event (-1500) "market_crash")
              "You hold on, hoping for more. (-KES 1500)" None)
           (player 4500 "hustle_q4") (kill (player 3000 "hustle_q4"))
           default_death).
  - reflexivity.
  - right. eexists. split; reflexivity.
Defined.

(** ** The script *)

(** X5. The script never goes back: a valid choice at a prompt leaves a
    living player on a prompt that comes later in the script, with two
    exceptions at [hustle_q4]: the first choice leaves the player on the
    marker [check_win], the third at [hustle_q4] itself.  So the fall-back
    to [hustle_intro] of line 240 is never taken by an outcome of the
    script. *)
Theorem script_never_goes_back (q choice : string) (o : outcome)
    (u u' : user_state) (r : string) :
  outcome_at q choice = Some o ->
  apply_outcome_and_get_message o u = Some (r, u') ->
  status u' = "alive" ->
  exists q', current_q u' = Some q' /\
    (further_along q q'
     \/ (q = "hustle_q4" /\ choice = "1" /\ q' = "check_win")
     \/ (q = "hustle_q4" /\ choice = "3" /\ q' = "hustle_q4")).
Proof.
  intros Ho. unfold outcome_at in Ho. simpl in Ho.
  repeat match type of Ho with
         | context [String.eqb ?a ?b] =>
             destruct (String.eqb_spec a b); simpl in Ho; subst
         end;
    try discriminate; injection Ho as <-; intros Happ Ha;
    first
      [ exfalso;
        unfold apply_outcome_and_get_message, apply_effects,
          apply_random_event in Happ;
        simpl in Happ; injection Happ as <- <-; discriminate
      | destruct (resolver_result_form _ _ _ _ Happ)
          as [[Hd [nw ->]] | [[nw ->] | [_ [nw [_ ->]]]]];
        [ simpl in Ha; contradiction
        | simpl in Ha; discriminate
        | eexists; split;
          [ reflexivity
          | first [ left; eexists _, _; split; [reflexivity |];
                    split; [reflexivity |]; vm_compute; lia
                  | right; left; repeat split; reflexivity
                  | right; right; repeat split; reflexivity ] ] ] ].
Qed.

Lemma script_never_goes_back_witness :
  exists q', current_q (player 1000 "hustle_q3") = Some q' /\
    (further_along "hustle_q2" q'
     \/ ("hustle_q2" = "hustle_q4" /\ "1" = "1" /\ q' = "check_win")
     \/ ("hustle_q2" = "hustle_q4" /\ "1" = "3" /\ q' = "hustle_q4")).
Proof.
  apply (script_never_goes_back "hustle_q2" "1"
           (mkOutcome (add_event (-2000) "ghosted")
              "You lent the money. Fingers crossed!" None)
           (player 5000 "hustle_q2") (player 1000 "hustle_q3")
           ("You lent the money. Fingers crossed!" +:+ LF
              +:+ "Oh no! Your cousin ghosted you! That KES 2000 is gone forever. (-KES 2000)")).
  - reflexivity.
  - reflexivity.
  - reflexivity.
Defined.

(** ** The orchestrator, whatever the message *)

Lemma get_user_state_stored (k : string) (w : world) :
  get_user_state k w = (Some (stored k w), w).
Proof.
  unfold stored, get_user_state. now destruct (users_table w).
Qed.

Lemma current_state_phone (k : string) (w : world) :
  phoneNumber (current_state k w) = k.
Proof.
  unfold current_state, stored, get_user_state.
  destruct (users_table w) as [t |]; simpl; [| reflexivity].
  now destruct (t !! k).
Qed.

(** The two ways a turn ends, in terms of [commit]. *)
Lemma save_send_commit (u : user_state) (s r : string) (x : response)
    (w : world) :
  (_ ← save_user_state u; _ ← send_sms_reply s r; mret x) w
    = (Some x, commit (Some u) s r w).
Proof.
  run_monad. unfold commit, save_user_state.
  destruct (users_table w); simpl; now rewrite send_sms_reply_eq.
Qed.

Lemma save_send_commit_nested (u : user_state) (s r : string) (x : response)
    (w : world) :
  (_ ← (_ ← save_user_state u; send_sms_reply s r); mret x) w
    = (Some x, commit (Some u) s r w).
Proof.
  run_monad. unfold commit, save_user_state.
  destruct (users_table w); simpl; now rewrite send_sms_reply_eq.
Qed.

Lemma send_commit (s r : string) (x : response) (w : world) :
  (_ ← send_sms_reply s r; mret x) w = (Some x, commit None s r w).
Proof. run_monad. unfold commit. now rewrite send_sms_reply_eq. Qed.

Lemma commit_service (saved : option user_state) (s r : string) (w : world) :
  sms_service (commit saved s r w) = sms_service w.
Proof.
  unfold commit. rewrite send_sms_reply_eq. simpl.
  destruct saved as [u |]; [| reflexivity].
  unfold save_user_state.
  destruct (users_table w) eqn:Ht; simpl; rewrite ?Ht; reflexivity.
Qed.

Lemma commit_table (saved : option user_state) (s r : string) (w : world) :
  users_table (commit saved s r w)
    = match saved with
      | Some u => insert (phoneNumber u) (item_to_save u) <$> users_table w
      | None => users_table w
      end.
Proof.
  unfold commit. rewrite send_sms_reply_eq. simpl.
  destruct saved as [u |]; [| reflexivity].
  unfold save_user_state.
  destruct (users_table w) eqn:Ht; simpl; rewrite ?Ht; reflexivity.
Qed.

Lemma commit_log (saved : option user_state) (s r : string) (w : world) :
  io_log (commit saved s r w)
    = io_log w
      ++ match saved, users_table w with
         | Some u, Some _ => [PutItem (phoneNumber u) (item_to_save u)]
         | _, _ => []
         end
      ++ sent w s r.
Proof.
  unfold commit. rewrite send_sms_reply_eq. simpl.
  destruct saved as [u |]; [| reflexivity].
  unfold save_user_state, sent.
  destruct (users_table w) eqn:Ht; simpl; [| reflexivity].
  now rewrite <- app_assoc.
Qed.

(** No string of [GAME_DATA] contains a key the handler probes for. *)
Lemma terminal_nodes (q s : string) :
  dict_get GAME_DATA q = Some (Terminal s) ->
  str_contains "outcomes" s = false /\ str_contains "options" s = false.
Proof.
  unfold GAME_DATA. simpl.
  repeat match goal with
         | |- context [String.eqb ?a ?b] => destruct (String.eqb a b)
         end;
    try discriminate; intros [= <-]; vm_compute; split; reflexivity.
Qed.

Lemma probe_outcomes_cases (k : option string) :
  probe_outcomes (game_data_get k) = Missing
  \/ exists q p table,
       k = Some q /\ dict_get GAME_DATA q = Some (Prompt p)
       /\ p_outcomes p = Some table
       /\ probe_outcomes (game_data_get k) = Found table.
Proof.
  destruct k as [q |]; [| now left]. unfold probe_outcomes, game_data_get.
  destruct (dict_get GAME_DATA q) as [[p | s] |] eqn:Hq; [| | now left].
  - destruct (p_outcomes p) as [table |] eqn:Hp; [| now left].
    right. now exists q, p, table.
  - destruct (terminal_nodes q s Hq) as [-> _]. now left.
Qed.

Lemma probe_options_cases (k : option string) :
  probe_options (game_data_get k) = Missing
  \/ exists q p,
       k = Some q /\ dict_get GAME_DATA q = Some (Prompt p)
       /\ probe_options (game_data_get k) = Found (p_message p, p_options p).
Proof.
  destruct k as [q |]; [| now left]. unfold probe_options, game_data_get.
  destruct (dict_get GAME_DATA q) as [[p | s] |] eqn:Hq; [| | now left].
  - right. now exists q, p.
  - destruct (terminal_nodes q s Hq) as [_ ->]. now left.
Qed.

(** The prompt of the next node never raises: the record is kept, or
    killed at a dead end. *)
Lemma prompt_next_form (r : string) (u1 : user_state) :
  exists r' u', prompt_next r u1 = Some (r', u') /\ (u' = u1 \/ u' = kill u1).
Proof.
  unfold prompt_next. destruct (is_alive u1); [| eauto].
  destruct (probe_options_cases (current_q u1)) as [-> | (q & p & _ & _ & ->)].
  - destruct (bool_decide (current_q u1 = Some "check_win")); eauto.
  - eauto.
Qed.

(** Whatever the resolver returns is [record_ok]. *)
Lemma resolver_result_ok (o : outcome) (u u' : user_state) (r : string) :
  record_ok u ->
  apply_outcome_and_get_message o u = Some (r, u') ->
  record_ok u' /\ phoneNumber u' = phoneNumber u.
Proof.
  intros Hok H.
  destruct (resolver_result_form o u u' r H)
    as [[Hd [n ->]] | [[n ->] | [_ [n [Hn ->]]]]]; unfold record_ok; simpl.
  - split; [intros Ha; contradiction | reflexivity].
  - split; [discriminate | reflexivity].
  - split; [intros _; exact Hn | reflexivity].
Qed.

(** The resolver keeps the phone number and revives nobody. *)
Lemma resolver_keeps (o : outcome) (u u' : user_state) (r : string) :
  apply_outcome_and_get_message o u = Some (r, u') ->
  phoneNumber u' = phoneNumber u /\ (status u' = "alive" -> status u = "alive").
Proof.
  intros H.
  destruct (resolver_result_form o u u' r H)
    as [[Hd [n ->]] | [[n ->] | [Ha [n [_ ->]]]]]; simpl;
    (split; [reflexivity |]); auto; discriminate.
Qed.

Lemma kill_ok (u : user_state) : record_ok (kill u).
Proof. unfold record_ok. simpl. discriminate. Qed.

(** An outcome found in the table of a prompt is an outcome of the script. *)
Lemma table_outcome (q text : string) (p : prompt)
    (table : list (string * outcome)) (o : outcome) :
  dict_get GAME_DATA q = Some (Prompt p) -> p_outcomes p = Some table ->
  dict_get table text = Some o -> outcome_at q text = Some o.
Proof. intros Hq Hp Ho. unfold outcome_at. now rewrite Hq, Hp. Qed.

Lemma record_ok_bound (u : user_state) :
  record_ok u -> status u = "alive" -> - 2 ^ 52 < net_worth u < 2 ^ 52.
Proof.
  intros Hok Ha. specialize (Hok Ha). unfold HUSTLE_GOAL in Hok.
  assert (10000 < 2 ^ 52) by reflexivity. lia.
Qed.

(** A valid choice resolved against a node of the script, then the prompt
    of the next node: it returns from a [record_ok] living record, and
    what it returns is [record_ok]. *)
Lemma resolve_and_prompt (q text : string) (o : outcome) (u : user_state) :
  outcome_at q text = Some o ->
  match apply_outcome_and_get_message o u with
  | Some (r, u1) => prompt_next r u1
  | None => None
  end = None /\ ~ (record_ok u /\ status u = "alive")
  \/ exists r' u',
       match apply_outcome_and_get_message o u with
       | Some (r, u1) => prompt_next r u1
       | None => None
       end = Some (r', u')
       /\ phoneNumber u' = phoneNumber u /\ (record_ok u -> record_ok u')
       /\ (status u' = "alive" -> status u = "alive").
Proof.
  intros Ho.
  destruct (apply_outcome_and_get_message o u) as [[r u1] |] eqn:Happ.
  - right. destruct (prompt_next_form r u1) as (r' & u' & -> & Hu').
    exists r', u'. split; [reflexivity |].
    destruct (resolver_keeps o u u1 r Happ) as [Hph Hst].
    destruct Hu' as [-> | ->].
    + split; [exact Hph |]. split; [| exact Hst]. intros Hok.
      exact (proj1 (resolver_result_ok o u u1 r Hok Happ)).
    + split; [exact Hph |]. split; [intros _; apply kill_ok | discriminate].
  - left. split; [reflexivity |]. intros [Hok Ha].
    destruct (resolver_returns_on_script q text o u Ho
                (record_ok_bound u Hok Ha)) as (r & u' & H).
    congruence.
Qed.

Lemma bind_lift_some {A B : Type} (a : A) (k : A -> M B) (w : world) :
  (lift (Some a) ≫= k) w = k a w.
Proof. reflexivity. Qed.

Lemma bind_lift_none {A B : Type} (k : A -> M B) (w : world) :
  (lift None ≫= k) w = (None, w).
Proof. reflexivity. Qed.

Lemma is_choice_cases (text : string) :
  is_choice text = true -> text = "1" \/ text = "2" \/ text = "3".
Proof.
  unfold is_choice.
  destruct (String.eqb_spec text "1"); [auto |].
  destruct (String.eqb_spec text "2"); [auto |].
  destruct (String.eqb_spec text "3"); [auto | discriminate].
Qed.

(** The turn at the intro node never raises; the record it hands back for
    saving keeps the phone number and is [record_ok] when the input was. *)
Lemma intro_turn_result (text : string) (u : user_state) :
  exists r u',
    intro_turn text u = Some (r, u')
    /\ phoneNumber u' = phoneNumber u /\ (record_ok u -> record_ok u')
    /\ (status u' = "alive" -> status u = "alive").
Proof.
  unfold intro_turn. destruct (is_choice text) eqn:Hc;
    [| eexists _, u; auto].
  set (u0 := set_current_q (p_next_state hustle_intro) u).
  assert (Hok0 : record_ok u -> record_ok u0) by (intros H; exact H).
  change (probe_outcomes (game_data_get (p_next_state hustle_intro)))
    with (Found (match p_outcomes hustle_q1 with Some t => t | None => [] end)).
  cbv beta iota.
  assert (Ho : exists o, dict_get (match p_outcomes hustle_q1 with
                                   | Some t => t | None => [] end) text = Some o
                         /\ no_percentage (out_effect o)
                         /\ triggered_event o = None).
  { destruct (is_choice_cases text Hc) as [-> | [-> | ->]];
      eexists; (split; [reflexivity |]); split;
      first [reflexivity | left; discriminate]. }
  destruct Ho as (o & -> & Hnp & Hev).
  destruct (resolver_returns o u0 Hnp) as (r & u1 & Happ).
  { intros ev Hev'. congruence. }
  rewrite Happ.
  destruct (prompt_next_form r u1) as (r' & u' & -> & Hu').
  exists r', u'. split; [reflexivity |].
  destruct (resolver_keeps o u0 u1 r Happ) as [Hph Hst].
  destruct Hu' as [-> | ->].
  - split; [exact Hph |]. split; [| exact Hst]. intros Hok.
    exact (proj1 (resolver_result_ok o u0 u1 r (Hok0 Hok) Happ)).
  - split; [exact Hph |]. split; [intros _; apply kill_ok | discriminate].
Qed.

(** The turn of a living player at a node other than the intro. *)
Lemma question_turn_result (sender text : string) (u : user_state) (w : world) :
  status u = "alive" ->
  turn_result sender text u w (question_turn sender text u w).
Proof.
  intros Ha. unfold question_turn.
  destruct (probe_outcomes_cases (current_q u))
    as [-> | (q & p & table & Hq & Hd & Hp & ->)].
  - rewrite save_send_commit. apply turn_done.
    intros u' [= <-]. split; [reflexivity |].
    split; [intros _; apply kill_ok | discriminate].
  - assert (Hopt : forall fallback,
               reprompt_options (game_data_get (current_q u)) fallback
               = Some (LF +:+ join_lines (p_options p))).
    { intros fallback. unfold reprompt_options, probe_options, game_data_get.
      now rewrite Hq, Hd. }
    destruct (is_choice text).
    + destruct (dict_get table text) as [o |] eqn:Ho.
      * destruct (resolve_and_prompt q text o u (table_outcome _ _ _ _ _ Hd Hp Ho))
          as [[-> Hbad] | (r' & u' & -> & Hph & Hok & Hst)].
        -- rewrite bind_lift_none. apply turn_raised. tauto.
        -- rewrite bind_lift_some. rewrite save_send_commit. apply turn_done.
           intros u'' [= <-]. auto.
      * rewrite Hopt, bind_lift_some, send_commit. apply turn_done.
        discriminate.
    + rewrite Hopt, bind_lift_some, send_commit. apply turn_done.
      discriminate.
Qed.

(** Every turn that reaches [handle_turn] either raises, and then only
    from a record out of range, or answers 200 after at most one save and
    one reply. *)
Lemma handle_turn_result (sender text : string) (w : world) :
  turn_result sender text (current_state (db_key sender) w) w
    (handle_turn sender (db_key sender) text w).
Proof.
  unfold handle_turn.
  change (mbind ?k (get_user_state (db_key sender)) w)
    with (let (o, w') := get_user_state (db_key sender) w in
          match o with Some a => k a w' | None => (None, w') end).
  rewrite get_user_state_stored. cbv beta iota zeta.
  fold (current_state (db_key sender) w).
  pose proof (current_state_phone (db_key sender) w) as Hph.
  generalize dependent (current_state (db_key sender) w). intros u Hph.
  destruct (String.eqb_spec text "RESTART") as [Hr | Hr].
  - rewrite save_send_commit. apply turn_done.
    intros u' [= <-]. split; [now rewrite Hph |].
    split; [| auto]. intros _ _. unfold HUSTLE_GOAL. simpl. lia.
  - destruct (game u) as [g |] eqn:Hg.
    + destruct (String.eqb g "hustle" && is_alive u) eqn:Hin.
      * apply andb_prop in Hin. destruct Hin as [_ Ha].
        apply is_alive_iff in Ha.
        destruct (bool_decide (current_q u = Some "hustle_intro")).
        -- destruct (intro_turn_result text u) as (r & u' & -> & Hp & Hok & Hst).
           rewrite bind_lift_some, save_send_commit. apply turn_done.
           intros u'' [= <-]. auto.
        -- apply question_turn_result. exact Ha.
      * rewrite send_commit. apply turn_done. discriminate.
    + unfold game_selection.
      destruct (is_hustle_choice text).
      * rewrite save_send_commit_nested. apply turn_done.
        intros u' [= <-]. split; [reflexivity |].
        split; [intros H; exact H | intros H; left; exact H].
      * destruct (is_perish_choice text); rewrite send_commit;
          apply turn_done; discriminate.
Qed.

(** Every message is refused with 400 and no effect, or handled as a turn
    of its sender. *)
Lemma handler_result (ev : sms_event) (w : world) :
  (exists m, inbound_sms_handler ev w = (Some (bad_request m), w))
  \/ exists sender,
       sms_from ev = Some sender /\
       exists raw,
         sms_text ev = Some raw /\
         turn_result sender (upper (strip raw))
           (current_state (db_key sender) w) w (inbound_sms_handler ev w).
Proof.
  unfold inbound_sms_handler.
  destruct (sms_text ev) as [raw |]; [| left; eauto].
  destruct (sms_from ev) as [sender |]; [| left; eauto].
  destruct (nonempty sender && nonempty (upper (strip raw))); [| left; eauto].
  right. exists sender. split; [reflexivity |].
  exists raw. split; [reflexivity |]. apply handle_turn_result.
Qed.

(** The same for any normalisation of the text. *)
Lemma handler_on_result (normalise : string -> string) (ev : sms_event)
    (w : world) :
  (exists m, inbound_sms_handler_on normalise ev w = (Some (bad_request m), w))
  \/ exists sender,
       sms_from ev = Some sender /\
       exists raw,
         sms_text ev = Some raw /\
         turn_result sender (normalise raw)
           (current_state (db_key sender) w) w
           (inbound_sms_handler_on normalise ev w).
Proof.
  unfold inbound_sms_handler_on.
  destruct (sms_text ev) as [raw |]; [| left; eauto].
  destruct (sms_from ev) as [sender |]; [| left; eauto].
  destruct (nonempty sender && nonempty (normalise raw)); [| left; eauto].
  right. exists sender. split; [reflexivity |].
  exists raw. split; [reflexivity |]. apply handle_turn_result.
Qed.

Lemma fresh_ok (k : string) : record_ok (fresh_state k).
Proof. intros _. unfold HUSTLE_GOAL. simpl. lia. Qed.

Lemma stored_cases (k : string) (w : world) (u : user_state) :
  stored k w = Some u ->
  exists t it, users_table w = Some t /\ t !! k = Some it
               /\ u = item_to_state k it.
Proof.
  unfold stored, get_user_state.
  destruct (users_table w) as [t |]; simpl; [| discriminate].
  destruct (t !! k) as [it |] eqn:Hk; simpl; [| discriminate].
  intros [= <-]. eauto.
Qed.

Lemma current_state_ok (k : string) (w : world) :
  table_ok w -> record_ok (current_state k w).
Proof.
  intros Hok. unfold current_state.
  destruct (stored k w) as [u |] eqn:Hs; simpl; [| apply fresh_ok].
  destruct (stored_cases k w u Hs) as (t & it & Ht & Hk & ->).
  exact (Hok t k it Ht Hk).
Qed.

Lemma saved_item_ok (u : user_state) :
  record_ok u -> record_ok (item_to_state (phoneNumber u) (item_to_save u)).
Proof.
  unfold record_ok. simpl. now rewrite int_of_Decimal_of_int.
Qed.

Lemma commit_keeps_table_ok (saved : option user_state) (s r : string)
    (w : world) :
  table_ok w -> (forall u, saved = Some u -> record_ok u) ->
  table_ok (commit saved s r w).
Proof.
  intros Hok Hsaved t' k it. rewrite commit_table.
  destruct saved as [u |]; [| apply Hok].
  destruct (users_table w) as [t |] eqn:Ht; simpl; [| discriminate].
  intros [= <-]. rewrite lookup_insert.
  destruct (decide (phoneNumber u = k)) as [<- | Hne].
  - intros [= <-]. apply saved_item_ok. now apply Hsaved.
  - intros Hk. exact (Hok t k it Ht Hk).
Qed.

(** On a table whose living records are in range, a message is always
    answered, and the table stays so. *)
Lemma handler_safe (ev : sms_event) (w : world) :
  table_ok w ->
  (exists resp, fst (inbound_sms_handler ev w) = Some resp)
  /\ table_ok (snd (inbound_sms_handler ev w)).
Proof.
  intros Hok.
  destruct (handler_result ev w) as [[m ->] | (sender & _ & raw & _ & Hres)].
  - split; [eauto | exact Hok].
  - pose proof (current_state_ok (db_key sender) w Hok) as Hu.
    destruct Hres as [Hbad | saved reply msg Hsaved].
    + contradiction.
    + split; [eauto |]. simpl. apply commit_keeps_table_ok; [exact Hok |].
      intros u' Hu'. exact (proj1 (proj2 (Hsaved u' Hu')) Hu).
Qed.

Lemma run_turns_ok (events : list sms_event) (w : world) :
  table_ok w -> table_ok (run_turns events w).
Proof.
  revert w. induction events as [| e rest IH]; intros w Hok; [exact Hok |].
  simpl. apply IH. exact (proj2 (handler_safe e w Hok)).
Qed.

Lemma new_world_ok : table_ok new_world.
Proof. intros t k it [= <-]. rewrite lookup_empty. discriminate. Qed.

(** X6. Starting from an empty table, after any sequence of messages
    whatever: the next message is answered (no exception leaves the
    handler), and every living record of the table holds a net worth from 0
    up to, and not including, the goal. *)
Theorem reachable_worlds_safe (events : list sms_event) :
  (forall ev : sms_event,
     exists resp,
       fst (inbound_sms_handler ev (run_turns events new_world)) = Some resp)
  /\ (forall (k : string) (u : user_state),
        stored k (run_turns events new_world) = Some u ->
        status u = "alive" -> 0 <= net_worth u < HUSTLE_GOAL).
Proof.
  pose proof (run_turns_ok events new_world new_world_ok) as Hok. split.
  - intros ev. exact (proj1 (handler_safe ev _ Hok)).
  - intros k u Hs.
    destruct (stored_cases k _ u Hs) as (t & it & Ht & Hk & ->).
    exact (Hok t k it Ht Hk).
Qed.

(** X7. What a turn may do.  A message answered 400 changes nothing.  A
    message answered 200 leaves the gateway setting alone, hands exactly
    one reply for its sender to [send_sms_reply], and either leaves the
    table as it was or writes one item, under the sender's number without
    its plus signs, every other key keeping its item. *)
Theorem turn_effects (ev : sms_event) (w w' : world) (resp : response) :
  inbound_sms_handler ev w = (Some resp, w') ->
  (statusCode resp = 400 /\ w' = w)
  \/ (statusCode resp = 200 /\ sms_service w' = sms_service w /\
      exists sender reply,
        sms_from ev = Some sender /\
        ((users_table w' = users_table w /\
          io_log w' = io_log w ++ sent w sender reply)
         \/ (exists t it,
               users_table w = Some t /\
               users_table w' = Some (<[db_key sender := it]> t) /\
               io_log w' = io_log w
                           ++ PutItem (db_key sender) it
                           :: sent w sender reply))).
Proof.
  intros H.
  destruct (handler_result ev w) as [[m Hm] | (sender & Hs & raw & _ & Hres)].
  - rewrite Hm in H. injection H as <- <-. left. split; reflexivity.
  - rewrite H in Hres. inversion Hres as [| saved reply msg Hsaved Hw'].
    right. split; [reflexivity |]. split; [apply commit_service |].
    exists sender, reply. split; [exact Hs |].
    rewrite commit_table, commit_log.
    destruct saved as [u' |]; [| left; split; reflexivity].
    destruct (Hsaved u' eq_refl) as [Hph _].
    rewrite current_state_phone in Hph.
    destruct (users_table w) as [t |]; simpl.
    + right. exists t, (item_to_save u'). rewrite Hph. repeat split.
    + left. split; reflexivity.
Qed.

Lemma turn_effects_witness :
  exists (resp : response) (w' : world),
    inbound_sms_handler (sms "+254700000000" "hello") new_world = (Some resp, w')
    /\ statusCode resp = 200
    /\ io_log w' = [SendSms "+254700000000" ("Welcome! " +:+ menu)].
Proof.
  eexists _, _. split; [vm_compute; reflexivity |].
  destruct (turn_effects (sms "+254700000000" "hello") new_world
              (mkWorld (Some ∅) true
                 [SendSms "+254700000000" ("Welcome! " +:+ menu)])
              (ok "Game selection handled."))
    as [[H _] | [H _]].
  - vm_compute. reflexivity.
  - discriminate H.
  - split; [exact H | reflexivity].
Defined.

(** ** Refused messages *)

Lemma lstrip_head (s : string) :
  lstrip s = "" \/ exists c r, lstrip s = String c r /\ is_space c = false.
Proof.
  induction s as [| c s IH]; [now left |]. simpl.
  destruct (is_space c) eqn:Hc; [exact IH |]. right. eauto.
Qed.

(** X8. A message is refused with status 400 exactly when it has no text,
    no sender, an empty sender, or a text that is empty once normalised; a
    refused message reads and writes nothing and gets no reply.  The
    normalisation is any function. *)
Theorem refused_iff_malformed (normalise : string -> string) (ev : sms_event)
    (w : world) :
  (malformed normalise ev ->
     exists m,
       inbound_sms_handler_on normalise ev w = (Some (bad_request m), w))
  /\ (forall resp,
        fst (inbound_sms_handler_on normalise ev w) = Some resp ->
        statusCode resp = 400 -> malformed normalise ev).
Proof.
  unfold malformed, inbound_sms_handler_on.
  destruct (sms_text ev) as [raw |]; [| split; eauto].
  destruct (sms_from ev) as [sender |]; [| split; eauto].
  destruct (nonempty sender && nonempty (normalise raw)) eqn:Hn.
  - apply andb_prop in Hn. destruct Hn as [Hs Hr].
    apply nonempty_iff in Hs, Hr. split.
    + intros [H | H]; contradiction.
    + intros resp Hresp H400.
      pose proof (handle_turn_result sender (normalise raw) w) as Hres.
      unfold db_key in Hres.
      inversion Hres as [Hbad Heq | saved reply msg _ Heq];
        rewrite <- Heq in Hresp; [discriminate |].
      injection Hresp as <-. discriminate.
  - split; [eauto |]. intros _ _ _.
    apply andb_false_iff in Hn. destruct Hn as [Hs | Hr].
    + left. destruct (String.eqb_spec sender ""); [assumption |].
      apply nonempty_iff in n. congruence.
    + right. destruct (String.eqb_spec (normalise raw) ""); [assumption |].
      apply nonempty_iff in n. congruence.
Qed.

Lemma refused_iff_malformed_witness :
  exists m,
    inbound_sms_handler (sms "+254700000000" "   ") new_world
      = (Some (bad_request m), new_world).
Proof.
  apply (proj1 (refused_iff_malformed (fun raw => upper (strip raw))
                  (sms "+254700000000" "   ") new_world)).
  right. reflexivity.
Defined.

(** ** Reviving *)

Lemma stored_commit (k : string) (saved : option user_state) (s r : string)
    (w : world) :
  stored k (commit saved s r w)
    = match saved with
      | Some u =>
          if decide (phoneNumber u = k) then
            match users_table w with
            | Some _ => Some (item_to_state k (item_to_save u))
            | None => None
            end
          else stored k w
      | None => stored k w
      end.
Proof.
  unfold stored at 1, get_user_state. rewrite commit_table.
  destruct saved as [u |].
  - destruct (users_table w) as [t |] eqn:Ht; simpl.
    + rewrite lookup_insert. destruct (decide (phoneNumber u = k)) as [<- | Hne].
      * reflexivity.
      * unfold stored, get_user_state. now rewrite Ht.
    + destruct (decide (phoneNumber u = k)); [reflexivity |].
      unfold stored, get_user_state. now rewrite Ht.
  - unfold stored, get_user_state. now destruct (users_table w).
Qed.

(** X9. Only the reset command revives: when a record that was not alive
    is alive after a message, the normalised text of the message was
    RESTART and the record is the sender's.  The normalisation is any
    function. *)
Theorem only_restart_revives (normalise : string -> string)
    (sender raw k : string) (w : world) (u u' : user_state) :
  stored k w = Some u -> status u <> "alive" ->
  stored k (snd (inbound_sms_handler_on normalise (sms sender raw) w))
    = Some u' ->
  status u' = "alive" ->
  normalise raw = "RESTART" /\ k = db_key sender.
Proof.
  intros Hs Hd Hs' Ha.
  destruct (handler_on_result normalise (sms sender raw) w)
    as [[m Hm] | (sender' & [= <-] & raw' & [= <-] & Hres)].
  - rewrite Hm in Hs'. simpl in Hs'. congruence.
  - destruct Hres as [Hbad | saved reply msg Hsaved];
      simpl in Hs'; [congruence |].
    rewrite stored_commit in Hs'.
    destruct saved as [u'' |]; [| congruence].
    destruct (Hsaved u'' eq_refl) as (Hph & _ & Hst).
    rewrite current_state_phone in Hph.
    destruct (decide (phoneNumber u'' = k)) as [Hk | Hk]; [| congruence].
    destruct (users_table w); [| discriminate].
    injection Hs' as <-. simpl in Ha.
    assert (Hcur : current_state (db_key sender) w = u).
    { unfold current_state. rewrite <- Hph, Hk, Hs. reflexivity. }
    rewrite Hcur in Hst.
    destruct (Hst Ha) as [H | H]; [contradiction |].
    split; [exact H | congruence].
Qed.

Lemma only_restart_revives_witness :
  upper (strip "restart") = "RESTART"
  /\ "254700000000" = db_key "+254700000000".
Proof.
  apply (only_restart_revives (fun raw => upper (strip raw))
           "+254700000000" "restart" "254700000000"
           (world_of (kill (player 10500 "hustle_q4")))
           (kill (player 10500 "hustle_q4"))
           (fresh_state "254700000000")).
  - vm_compute. reflexivity.
  - discriminate.
  - vm_compute. reflexivity.
  - reflexivity.
Defined.

(** ** Players without a game *)

Lemma no_table_stored (k : string) (w : world) :
  users_table w = None -> stored k w = None.
Proof. intros H. unfold stored, get_user_state. now rewrite H. Qed.

Lemma absent_stored (k : string) (w : world) (t : gmap string db_attrs) :
  users_table w = Some t -> t !! k = None -> stored k w = None.
Proof. intros H Hk. unfold stored, get_user_state. now rewrite H, Hk. Qed.

Lemma handle_turn_restart (sender : string) (w : world) :
  handle_turn sender (db_key sender) "RESTART" w
    = (Some (ok "Game restarted."),
       commit (Some (fresh_state (db_key sender))) sender
         ("Welcome back! " +:+ menu) w).
Proof.
  unfold handle_turn.
  change (mbind ?k (get_user_state (db_key sender)) w)
    with (let (o, w') := get_user_state (db_key sender) w in
          match o with Some a => k a w' | None => (None, w') end).
  rewrite get_user_state_stored. cbv beta iota zeta.
  change (String.eqb "RESTART" "RESTART") with true. cbv iota.
  apply save_send_commit.
Qed.

Lemma game_selection_commit (sender text : string) (u : user_state) (w : world) :
  game_selection sender text u w
    = (Some (ok "Game selection handled."),
       commit (if is_hustle_choice text then
                 Some (set_current_q (Some "hustle_intro")
                         (set_game (Some "hustle") u))
               else None)
         sender (selection_reply text) w).
Proof.
  unfold game_selection, selection_reply.
  destruct (is_hustle_choice text).
  - apply save_send_commit_nested.
  - destruct (is_perish_choice text); apply send_commit.
Qed.

(** A sender the table holds nothing for is shown the game menu. *)
Lemma handle_turn_new (sender text : string) (w : world) :
  stored (db_key sender) w = None -> text <> "RESTART" ->
  handle_turn sender (db_key sender) text w
    = game_selection sender text (fresh_state (db_key sender)) w.
Proof.
  intros Hs Hr. unfold handle_turn.
  change (mbind ?k (get_user_state (db_key sender)) w)
    with (let (o, w') := get_user_state (db_key sender) w in
          match o with Some a => k a w' | None => (None, w') end).
  rewrite get_user_state_stored, Hs. cbv beta iota zeta.
  apply String.eqb_neq in Hr. rewrite Hr. reflexivity.
Qed.

Lemma commit_no_table (saved : option user_state) (s r : string) (w : world) :
  users_table w = None ->
  commit saved s r w = mkWorld None (sms_service w) (io_log w ++ sent w s r).
Proof.
  intros Ht. unfold commit. rewrite send_sms_reply_eq.
  destruct saved as [u |]; unfold save_user_state; rewrite ?Ht; simpl;
    unfold sent; rewrite ?Ht; reflexivity.
Qed.

(** X10. Without a users table ([USERS_TABLE] unset) every message with a
    sender and a text that is not empty once normalised is still answered
    200, but nothing is kept: the table stays absent, and the sender is
    treated as a new player each time, so the reply is the menu's answer to
    the text, or the welcome-back menu for RESTART.  The normalisation is
    any function. *)
Theorem no_table_turn (normalise : string -> string) (w : world)
    (sender raw text : string) :
  users_table w = None ->
  sender <> "" -> normalise raw = text -> text <> "" ->
  inbound_sms_handler_on normalise (sms sender raw) w
    = (Some (ok (if String.eqb text "RESTART" then "Game restarted."
                 else "Game selection handled.")),
       mkWorld None (sms_service w)
         (io_log w
            ++ sent w sender
                 (if String.eqb text "RESTART" then "Welcome back! " +:+ menu
                  else selection_reply text))).
Proof.
  intros Ht Hs Hn Hne.
  rewrite (handler_on_dispatch normalise sender raw text w Hs Hn Hne).
  destruct (String.eqb_spec text "RESTART") as [-> | Hr].
  - rewrite handle_turn_restart. now rewrite commit_no_table.
  - rewrite handle_turn_new by (try assumption; now apply no_table_stored).
    rewrite game_selection_commit. now rewrite commit_no_table.
Qed.

Lemma no_table_turn_witness :
  inbound_sms_handler (sms "+254700000000" "1") (mkWorld None true [])
    = (Some (ok "Game selection handled."),
       mkWorld None true
         [SendSms "+254700000000"
            (p_message hustle_intro +:+ LF +:+ intro_options)]).
Proof.
  apply (no_table_turn (fun raw => upper (strip raw))
           (mkWorld None true []) "+254700000000" "1" "1").
  - reflexivity.
  - discriminate.
  - reflexivity.
  - discriminate.
Defined.

(** X11. First contact.  A sender the table holds nothing for, whose
    number is not made of plus signs only, sends a text that, normalised,
    is neither empty nor RESTART, and is answered from the game menu.  A
    record is created only when the text picks the hustle game, and it is
    then: game [hustle], alive, net worth 0, no days survived, at
    [hustle_intro]; any other text leaves the table as it was.  The
    normalisation is any function. *)
Theorem first_contact (normalise : string -> string) (w : world)
    (t : gmap string db_attrs) (sender raw text : string) :
  users_table w = Some t -> t !! db_key sender = None ->
  db_key sender <> "" -> normalise raw = text -> text <> "" ->
  text <> "RESTART" ->
  fst (inbound_sms_handler_on normalise (sms sender raw) w)
    = Some (ok "Game selection handled.") /\
  users_table (snd (inbound_sms_handler_on normalise (sms sender raw) w))
    = Some (if is_hustle_choice text then
              <[db_key sender :=
                  item_to_save (mkState (db_key sender) (Some "hustle") "alive"
                                  0 0 (Some "hustle_intro"))]> t
            else t) /\
  io_log (snd (inbound_sms_handler_on normalise (sms sender raw) w))
    = io_log w
      ++ (if is_hustle_choice text then
            [PutItem (db_key sender)
               (item_to_save (mkState (db_key sender) (Some "hustle") "alive"
                                0 0 (Some "hustle_intro")))]
          else [])
      ++ sent w sender (selection_reply text).
Proof.
  intros Ht Hk Hkey Hn Hne Hr.
  assert (Hs : sender <> "") by (intros ->; now apply Hkey).
  rewrite (handler_on_dispatch normalise sender raw text w Hs Hn Hne).
  rewrite handle_turn_new by (try assumption; now apply (absent_stored _ w t)).
  rewrite game_selection_commit. simpl fst. simpl snd.
  rewrite commit_table, commit_log, Ht.
  split; [reflexivity |].
  destruct (is_hustle_choice text); split; reflexivity.
Qed.

Lemma first_contact_witness :
  users_table (snd (inbound_sms_handler (sms "+254700000000" "hustle") new_world))
    = Some (<["254700000000" :=
                item_to_save (mkState "254700000000" (Some "hustle") "alive"
                                0 0 (Some "hustle_intro"))]> ∅).
Proof.
  apply (first_contact (fun raw => upper (strip raw))
           new_world ∅ "+254700000000" "hustle" "HUSTLE").
  - reflexivity.
  - apply lookup_empty.
  - discriminate.
  - reflexivity.
  - discriminate.
  - discriminate.
Defined.

(** ** Reading back *)

Lemma empty_to_None_nonempty (s : string) : empty_to_None s <> Some "".
Proof.
  unfold empty_to_None. destruct (String.eqb_spec s ""); congruence.
Qed.

(** X12. A record read from the table is stable under saving: when the
    store accepts it, saved as it is and read again it comes back equal,
    with no condition on its game or node, because a record never comes
    out of [get_user_state] with an empty game or node.  This holds
    whatever the store accepts. *)
Theorem stored_record_resaved (accepts : user_state -> bool) (k : string)
    (w : world) (u : user_state) :
  stored k w = Some u -> accepts u = true ->
  fst (save_user_state_checked accepts u w) = Some true /\
  stored k (snd (save_user_state_checked accepts u w)) = Some u.
Proof.
  intros Hs Hacc. rewrite (save_user_state_accepted accepts u w Hacc).
  destruct (stored_cases k w u Hs) as (t & it & Ht & Hk & ->).
  split; [unfold save_user_state; now rewrite Ht |].
  change k with (phoneNumber (item_to_state k it)) at 1.
  rewrite (stored_after_save w t _ Ht). f_equal.
  apply item_roundtrip; apply empty_to_None_nonempty.
Qed.

Lemma stored_record_resaved_witness :
  stored "254700000000"
    (snd (save_user_state_checked store_accepts (player 5000 "hustle_q2")
            (world_of (player 5000 "hustle_q2"))))
  = Some (player 5000 "hustle_q2").
Proof.
  apply (stored_record_resaved store_accepts "254700000000"
           (world_of (player 5000 "hustle_q2")) (player 5000 "hustle_q2")).
  - vm_compute. reflexivity.
  - vm_compute. reflexivity.
Defined.

(** ** Turns of a living player *)

Lemma prompt_keys (q : string) (p : prompt) :
  dict_get GAME_DATA q = Some (Prompt p) -> In q script_nodes.
Proof.
  unfold GAME_DATA, script_nodes. simpl.
  repeat match goal with
         | |- context [String.eqb ?a ?b] =>
             destruct (String.eqb_spec a b);
             [subst; first [discriminate | intros _; tauto] |]
         end.
  discriminate.
Qed.

Lemma off_script_missing (k : option string) :
  (forall q, k = Some q -> ~ In q script_nodes) ->
  probe_outcomes (game_data_get k) = Missing.
Proof.
  intros Hoff.
  destruct (probe_outcomes_cases k) as [H | (q & p & table & Hq & Hd & _)];
    [exact H |].
  destruct (Hoff q Hq (prompt_keys q p Hd)).
Qed.

Lemma stored_after_commit (u' : user_state) (s r : string) (w : world)
    (t : gmap string db_attrs) :
  users_table w = Some t ->
  game u' <> Some "" -> current_q u' <> Some "" ->
  stored (phoneNumber u') (commit (Some u') s r w) = Some u'.
Proof.
  intros Ht Hg Hq. rewrite stored_commit, Ht.
  destruct (decide (phoneNumber u' = phoneNumber u')); [| contradiction].
  now rewrite item_roundtrip.
Qed.

(** X13. A living hustle player whose current node is not a prompt of the
    script (no node at all, [check_win], a message key, an unknown key) is
    eliminated by the next message whose normalised text is neither empty
    nor RESTART: the record, one the store accepts, is saved dead with
    neither game nor node, and the reply is the invalid-state error.  The
    normalisation is any function. *)
Theorem corrupted_node_kills (normalise : string -> string) (w : world)
    (t : gmap string db_attrs) (sender raw text : string) (it : db_attrs) :
  users_table w = Some t -> t !! db_key sender = Some it ->
  sender <> "" -> normalise raw = text -> text <> "" ->
  text <> "RESTART" ->
  game (loaded sender it) = Some "hustle" ->
  status (loaded sender it) = "alive" ->
  store_accepts (kill (loaded sender it)) = true ->
  (forall q, current_q (loaded sender it) = Some q -> ~ In q script_nodes) ->
  fst (inbound_sms_handler_on normalise (sms sender raw) w)
    = Some (ok "Error in game state.") /\
  stored (db_key sender)
    (snd (inbound_sms_handler_on normalise (sms sender raw) w))
    = Some (kill (loaded sender it)) /\
  io_log (snd (inbound_sms_handler_on normalise (sms sender raw) w))
    = io_log w
      ++ PutItem (db_key sender) (item_to_save (kill (loaded sender it)))
      :: sent w sender
           "Error: Invalid game state (missing outcomes for current question). Reply RESTART to begin anew.".
Proof.
  intros Ht Hk Hs Hn Hne Hr Hg Ha _ Hoff.
  rewrite (handler_on_dispatch normalise sender raw text w Hs Hn Hne).
  rewrite (handle_turn_loaded w t sender it Ht Hk text Hr), Hg.
  pose proof (loaded_phone sender it) as Hph.
  set (u := loaded sender it) in *. clearbody u.
  apply is_alive_iff in Ha. rewrite Ha. simpl andb. cbv iota.
  rewrite bool_decide_eq_false_2.
  2:{ intros Hq. apply (Hoff _ Hq). unfold script_nodes. simpl. tauto. }
  unfold question_turn. rewrite (off_script_missing _ Hoff).
  rewrite save_send_commit. simpl fst. simpl snd.
  split; [reflexivity |]. split.
  - rewrite <- Hph. change (phoneNumber u) with (phoneNumber (kill u)).
    apply (stored_after_commit (kill u) _ _ w t Ht); discriminate.
  - rewrite commit_log, Ht, <- Hph. reflexivity.
Qed.

Lemma corrupted_node_kills_witness :
  stored "254700000000"
    (snd (inbound_sms_handler (sms "+254700000000" "1")
            (world_of (player 8000 "check_win"))))
  = Some (kill (player 8000 "check_win")).
Proof.
  assert (Hfound : table_of (player 8000 "check_win") !! db_key "+254700000000"
                   = Some (item_to_save (player 8000 "check_win")))
    by (vm_compute; reflexivity).
  refine (proj1 (proj2 (corrupted_node_kills
                          (fun raw => upper (strip raw))
                          (world_of (player 8000 "check_win"))
                          (table_of (player 8000 "check_win"))
                          "+254700000000" "1" "1"
                          (item_to_save (player 8000 "check_win"))
                          eq_refl Hfound _ _ _ _ _ _ _ _)));
    try first [reflexivity | discriminate].
  intros q [= <-]. unfold script_nodes. simpl.
  intros [H | [H | [H | [H | [H | []]]]]]; discriminate.
Defined.

(** A valid choice at a node of the script other than the intro: the
    record the resolver and the next prompt leave is saved and read back,
    and the composed reply sent. *)
Lemma script_turn (w : world) (t : gmap string db_attrs)
    (sender raw q text : string) (it : db_attrs) (o : outcome)
    (r r' : string) (u1 u' : user_state) :
  users_table w = Some t -> t !! db_key sender = Some it ->
  sender <> "" -> upper (strip raw) = text -> is_choice text = true ->
  game (loaded sender it) = Some "hustle" ->
  status (loaded sender it) = "alive" ->
  current_q (loaded sender it) = Some q -> q <> "hustle_intro" ->
  outcome_at q text = Some o ->
  apply_outcome_and_get_message o (loaded sender it) = Some (r, u1) ->
  prompt_next r u1 = Some (r', u') ->
  fst (inbound_sms_handler (sms sender raw) w)
    = Some (ok "SMS received and processed successfully!") /\
  stored (db_key sender) (snd (inbound_sms_handler (sms sender raw) w))
    = Some u' /\
  io_log (snd (inbound_sms_handler (sms sender raw) w))
    = io_log w ++ PutItem (db_key sender) (item_to_save u') :: sent w sender r'.
Proof.
  intros Ht Hk Hs Hn Hc Hg Ha Hq Hqi Ho Happ Hnext.
  assert (Hne : text <> "" /\ text <> "RESTART").
  { destruct (is_choice_cases text Hc) as [-> | [-> | ->]];
      split; discriminate. }
  rewrite (handler_dispatch sender raw text w Hs Hn (proj1 Hne)).
  rewrite (handle_turn_loaded w t sender it Ht Hk text (proj2 Hne)), Hg.
  pose proof (loaded_phone sender it) as Hph.
  set (u := loaded sender it) in *. clearbody u.
  pose proof Ha as Hal. apply is_alive_iff in Hal. rewrite Hal.
  simpl andb. cbv iota.
  rewrite bool_decide_eq_false_2 by (rewrite Hq; congruence).
  unfold outcome_at in Ho.
  destruct (dict_get GAME_DATA q) as [[p | s] |] eqn:Hd; try discriminate.
  destruct (p_outcomes p) as [table |] eqn:Hp; [| discriminate].
  assert (Hgd : game_data_get (current_q u) = Some (Prompt p))
    by (rewrite Hq; exact Hd).
  rewrite (question_turn_choice sender text u u1 u' w t p table o r r'
             Ht Hgd Hp Hc Ho Happ Hnext).
  simpl fst. simpl snd. split; [reflexivity |].
  assert (Hu' : u' = u1 \/ u' = kill u1).
  { destruct (prompt_next_form r u1) as (r2 & u2 & H2 & Hu2).
    rewrite Hnext in H2. now injection H2 as <- <-. }
  assert (Hu1 : phoneNumber u1 = db_key sender
                /\ game u1 <> Some "" /\ current_q u1 <> Some "").
  { destruct (resolver_result_form o u u1 r Happ)
      as [[Hd' [n ->]] | [[n ->] | [_ [n [_ ->]]]]]; simpl.
    - contradiction.
    - repeat split; [exact Hph | discriminate | discriminate].
    - repeat split; [exact Hph | rewrite Hg; discriminate |].
      intros [= H]. exact (next_or_intro_nonempty _ H). }
  assert (Hfin : phoneNumber u' = db_key sender
                 /\ game u' <> Some "" /\ current_q u' <> Some "").
  { destruct Hu' as [-> | ->]; [exact Hu1 |].
    repeat split; [exact (proj1 Hu1) | discriminate | discriminate]. }
  destruct Hfin as (Hph' & Hg' & Hq').
  rewrite Hph'. split; [| reflexivity].
  erewrite stored_eq by reflexivity. rewrite lookup_insert_eq.
  change (Some (item_to_state (db_key sender) (item_to_save u')) = Some u').
  rewrite <- Hph'. f_equal. now apply item_roundtrip.
Qed.

Lemma prompt_next_check_win (r : string) (u : user_state) :
  status u = "alive" -> current_q u = Some "check_win" ->
  prompt_next r u = Some (r, u).
Proof.
  intros Ha Hq. unfold prompt_next. apply is_alive_iff in Ha.
  rewrite Ha, Hq. reflexivity.
Qed.

Lemma sell_effects (u : user_state) :
  apply_effects
    (mkOutcome (add 8000) "You sold your hustle! A solid exit. (+KES 8000)"
       (Some "check_win")) u
  = Some ("You sold your hustle! A solid exit. (+KES 8000)",
          set_net_worth (net_worth u + 8000) u, Some "check_win").
Proof. reflexivity. Qed.

(** X14. Selling at [hustle_q4].  A living hustle player at [hustle_q4]
    sends 1 and gains 8000 (the net worth floored at zero).  At or above the
    goal the record is saved dead with neither game nor node and the reply
    is the sale, the win message and the net worth.  Below the goal the
    record stays alive on the node [check_win], which is no prompt of the
    script, and the reply is the sale alone, with no prompt to answer. *)
Theorem sell_hustle_turn (w : world) (t : gmap string db_attrs)
    (sender raw : string) (it : db_attrs) :
  users_table w = Some t -> t !! db_key sender = Some it ->
  sender <> "" -> upper (strip raw) = "1" ->
  game (loaded sender it) = Some "hustle" ->
  status (loaded sender it) = "alive" ->
  current_q (loaded sender it) = Some "hustle_q4" ->
  (HUSTLE_GOAL <= Z.max 0 (net_worth (loaded sender it) + 8000) ->
     stored (db_key sender) (snd (inbound_sms_handler (sms sender raw) w))
       = Some (kill (set_net_worth
                       (Z.max 0 (net_worth (loaded sender it) + 8000))
                       (loaded sender it))) /\
     io_log (snd (inbound_sms_handler (sms sender raw) w))
       = io_log w
         ++ PutItem (db_key sender)
              (item_to_save
                 (kill (set_net_worth
                          (Z.max 0 (net_worth (loaded sender it) + 8000))
                          (loaded sender it))))
         :: sent w sender
              ("You sold your hustle! A solid exit. (+KES 8000)" +:+ LF
                 +:+ win_hustle +:+ LF +:+ "Current Net Worth: KES "
                 +:+ str_of_int
                       (Z.max 0 (net_worth (loaded sender it) + 8000)))) /\
  (Z.max 0 (net_worth (loaded sender it) + 8000) < HUSTLE_GOAL ->
     stored (db_key sender) (snd (inbound_sms_handler (sms sender raw) w))
       = Some (set_current_q (Some "check_win")
                 (set_net_worth
                    (Z.max 0 (net_worth (loaded sender it) + 8000))
                    (loaded sender it))) /\
     io_log (snd (inbound_sms_handler (sms sender raw) w))
       = io_log w
         ++ PutItem (db_key sender)
              (item_to_save
                 (set_current_q (Some "check_win")
                    (set_net_worth
                       (Z.max 0 (net_worth (loaded sender it) + 8000))
                       (loaded sender it))))
         :: sent w sender "You sold your hustle! A solid exit. (+KES 8000)").
Proof.
  intros Ht Hk Hs Hn Hg Ha Hq.
  set (o := mkOutcome (add 8000)
              "You sold your hustle! A solid exit. (+KES 8000)"
              (Some "check_win")).
  set (u := loaded sender it) in *.
  set (m := Z.max 0 (net_worth u + 8000)).
  assert (Ho : outcome_at "hustle_q4" "1" = Some o) by reflexivity.
  assert (Hqi : "hustle_q4" <> "hustle_intro") by discriminate.
  split; intros Hm.
  - assert (Happ : apply_outcome_and_get_message o u
                   = Some ("You sold your hustle! A solid exit. (+KES 8000)"
                             +:+ LF +:+ win_hustle +:+ LF
                             +:+ "Current Net Worth: KES " +:+ str_of_int m,
                           kill (set_net_worth m u))).
    { unfold apply_outcome_and_get_message, o. rewrite sell_effects.
      rewrite (clamp_set_net_worth _ _ Ha).
      rewrite check_win_goal; [reflexivity | exact Ha | exact Hm]. }
    exact (proj2 (script_turn w t sender raw "hustle_q4" "1" it o _ _ _ _
                    Ht Hk Hs Hn eq_refl Hg Ha Hq Hqi Ho Happ eq_refl)).
  - assert (Happ : apply_outcome_and_get_message o u
                   = Some ("You sold your hustle! A solid exit. (+KES 8000)",
                           set_current_q (Some "check_win")
                             (set_net_worth m u))).
    { unfold apply_outcome_and_get_message, o. rewrite sell_effects.
      rewrite (clamp_set_net_worth _ _ Ha).
      rewrite check_win_continue; [reflexivity | exact Ha | exact Hm]. }
    assert (Hnext : prompt_next
                      "You sold your hustle! A solid exit. (+KES 8000)"
                      (set_current_q (Some "check_win") (set_net_worth m u))
                    = Some ("You sold your hustle! A solid exit. (+KES 8000)",
                            set_current_q (Some "check_win")
                              (set_net_worth m u))).
    { apply prompt_next_check_win; [exact Ha | reflexivity]. }
    exact (proj2 (script_turn w t sender raw "hustle_q4" "1" it o _ _ _ _
                    Ht Hk Hs Hn eq_refl Hg Ha Hq Hqi Ho Happ Hnext)).
Qed.

Lemma sell_hustle_turn_witness :
  stored "254700000000"
    (snd (inbound_sms_handler (sms "+254700000000" "1")
            (world_of (player 1000 "hustle_q4"))))
  = Some (player 9000 "check_win").
Proof.
  assert (Hfound : table_of (player 1000 "hustle_q4") !! db_key "+254700000000"
                   = Some (item_to_save (player 1000 "hustle_q4")))
    by (vm_compute; reflexivity).
  refine (proj1 (proj2 (sell_hustle_turn
                          (world_of (player 1000 "hustle_q4"))
                          (table_of (player 1000 "hustle_q4"))
                          "+254700000000" "1"
                          (item_to_save (player 1000 "hustle_q4"))
                          eq_refl Hfound _ _ _ _ _) _));
    first [reflexivity | discriminate | (unfold HUSTLE_GOAL; simpl; lia)].
Defined.

Lemma all_in_resolved (u : user_state) :
  status u = "alive" -> 0 <= net_worth u < HUSTLE_GOAL ->
  apply_outcome_and_get_message
    (mkOutcome (add_event 3000 "ai_boom_bust") "You bet big on AI fashion!" None)
    u
  = Some ("You bet big on AI fashion!" +:+ LF
            +:+ "The AI bubble burst! You lost half your net worth but learned a valuable lesson. (-HALF)",
          set_current_q (Some "hustle_q4")
            (set_net_worth ((net_worth u + 3001) / 2) u)).
Proof.
  intros Ha Hr. unfold HUSTLE_GOAL in Hr.
  set (h := (net_worth u + 3001) / 2).
  assert (Hh : net_worth u + 3000 - (net_worth u + 3000) ÷ 2 = h
               /\ 0 <= h < 10000).
  { unfold h. rewrite Z.quot_div_nonneg by lia.
    Z.div_mod_to_equations. lia. }
  unfold apply_outcome_and_get_message, apply_effects, apply_random_event.
  change (apply_effect (out_effect _) (out_message _) u)
    with (Some ("You bet big on AI fashion!",
                set_net_worth (net_worth u + 3000) u)).
  cbn -[int_of_product apply_effect Z.add].
  rewrite boom_bust_halves
    by (change (- 2 ^ 53 < net_worth u + 3000 < 2 ^ 53);
        assert (10000 < 2 ^ 53) by reflexivity; lia).
  change (net_worth (set_net_worth (net_worth u + 3000) u))
    with (net_worth u + 3000).
  rewrite (proj1 Hh).
  change (set_net_worth h (set_net_worth (net_worth u + 3000) u))
    with (set_net_worth h u).
  rewrite (clamp_set_net_worth _ _ Ha).
  rewrite check_win_continue;
    [| exact Ha | unfold HUSTLE_GOAL; simpl; lia].
  replace (Z.max 0 h) with h by lia. reflexivity.
Qed.

(** X15. Going all-in at [hustle_q3].  A living hustle player at
    [hustle_q3] with a net worth from 0 up to the goal sends 1: 3000 is
    added and the burst bubble takes half of the sum, the odd unit staying
    with the player; the record is saved alive at [hustle_q4]. *)
Theorem all_in_turn (w : world) (t : gmap string db_attrs)
    (sender raw : string) (it : db_attrs) :
  users_table w = Some t -> t !! db_key sender = Some it ->
  sender <> "" -> upper (strip raw) = "1" ->
  game (loaded sender it) = Some "hustle" ->
  status (loaded sender it) = "alive" ->
  current_q (loaded sender it) = Some "hustle_q3" ->
  0 <= net_worth (loaded sender it) < HUSTLE_GOAL ->
  fst (inbound_sms_handler (sms sender raw) w)
    = Some (ok "SMS received and processed successfully!") /\
  stored (db_key sender) (snd (inbound_sms_handler (sms sender raw) w))
    = Some (set_current_q (Some "hustle_q4")
              (set_net_worth ((net_worth (loaded sender it) + 3001) / 2)
                 (loaded sender it))).
Proof.
  intros Ht Hk Hs Hn Hg Ha Hq Hr.
  pose proof (all_in_resolved (loaded sender it) Ha Hr) as Happ.
  set (u' := set_current_q (Some "hustle_q4")
               (set_net_worth ((net_worth (loaded sender it) + 3001) / 2)
                  (loaded sender it))) in *.
  set (r := "You bet big on AI fashion!" +:+ LF
            +:+ "The AI bubble burst! You lost half your net worth but learned a valuable lesson. (-HALF)") in *.
  destruct (prompt_next_form r u') as (r' & u'' & Hnext & [-> | ->]).
  - pose proof (script_turn w t sender raw "hustle_q3" "1" it _ r r' u' u'
                  Ht Hk Hs Hn eq_refl Hg Ha Hq ltac:(discriminate) eq_refl
                  Happ Hnext) as (H1 & H2 & _).
    split; assumption.
  - exfalso. revert Hnext. unfold prompt_next.
    assert (Hal : is_alive u' = true) by (apply is_alive_iff; exact Ha).
    rewrite Hal.
    change (probe_options (game_data_get (current_q u')))
      with (Found (p_message hustle_q4, p_options hustle_q4)).
    intros H. injection H as _ H2.
    unfold loaded in Hg. simpl in Hg. congruence.
Qed.

Lemma all_in_turn_witness :
  stored "254700000000"
    (snd (inbound_sms_handler (sms "+254700000000" "1")
            (world_of (player 1 "hustle_q3"))))
  = Some (player 1501 "hustle_q4").
Proof.
  assert (Hfound : table_of (player 1 "hustle_q3") !! db_key "+254700000000"
                   = Some (item_to_save (player 1 "hustle_q3")))
    by (vm_compute; reflexivity).
  refine (proj2 (all_in_turn
                   (world_of (player 1 "hustle_q3"))
                   (table_of (player 1 "hustle_q3"))
                   "+254700000000" "1"
                   (item_to_save (player 1 "hustle_q3"))
                   eq_refl Hfound _ _ _ _ _ _));
    first [reflexivity | discriminate
          | (split; vm_compute; [discriminate | reflexivity])].
Defined.

(** X16. The first choice after the intro is resolved as a choice at
    [hustle_q1]: for a living hustle player at [hustle_intro] who sends 1, 2
    or 3, the turn leaves the world (table, trace of writes and replies)
    exactly as the same message would, had the record stood on [hustle_q1]. *)
Theorem intro_choice_as_q1 (w : world) (t : gmap string db_attrs)
    (sender raw text : string) (it : db_attrs) :
  users_table w = Some t -> t !! db_key sender = Some it ->
  sender <> "" -> upper (strip raw) = text -> is_choice text = true ->
  game (loaded sender it) = Some "hustle" ->
  status (loaded sender it) = "alive" ->
  current_q (loaded sender it) = Some "hustle_intro" ->
  snd (inbound_sms_handler (sms sender raw) w)
  = snd (inbound_sms_handler (sms sender raw)
           (mkWorld
              (Some (<[db_key sender :=
                         item_to_save (set_current_q (Some "hustle_q1")
                                         (loaded sender it))]> t))
              (sms_service w) (io_log w))).
Proof.
  intros Ht Hk Hs Hn Hc Hg Ha Hq.
  assert (Hne : text <> "" /\ text <> "RESTART").
  { destruct (is_choice_cases text Hc) as [-> | [-> | ->]];
      split; discriminate. }
  set (u0 := set_current_q (Some "hustle_q1") (loaded sender it)).
  assert (Hu0 : loaded sender (item_to_save u0) = u0).
  { unfold loaded. change (db_key sender) with (phoneNumber u0).
    apply item_roundtrip; unfold u0.
    - change (game (loaded sender it) <> Some ""). rewrite Hg. discriminate.
    - simpl. discriminate. }
  set (w1 := mkWorld (Some (<[db_key sender := item_to_save u0]> t))
               (sms_service w) (io_log w)).
  rewrite !(handler_dispatch sender raw text _ Hs Hn (proj1 Hne)).
  rewrite (handle_turn_loaded w t sender it Ht Hk text (proj2 Hne)), Hg.
  rewrite (handle_turn_loaded w1 _ sender (item_to_save u0) eq_refl
             (lookup_insert_eq _ _ _) text (proj2 Hne)).
  rewrite Hu0.
  change (game u0) with (game (loaded sender it)). rewrite Hg.
  change (is_alive u0) with (is_alive (loaded sender it)).
  pose proof Ha as Hal. apply is_alive_iff in Hal. rewrite Hal.
  simpl andb. cbv iota.
  rewrite bool_decide_eq_true_2 by exact Hq.
  rewrite bool_decide_eq_false_2 by (unfold u0; simpl; discriminate).
  destruct (intro_turn text (loaded sender it)) as [[r u'] |] eqn:Hintro.
  2:{ destruct (intro_turn_result text (loaded sender it))
        as (r & u' & H & _). congruence. }
  assert (Hph : phoneNumber u' = db_key sender).
  { destruct (intro_turn_result text (loaded sender it))
      as (r2 & u2 & H & Hp & _).
    rewrite Hintro in H. injection H as <- <-. exact Hp. }
  revert Hintro. unfold intro_turn. rewrite Hc.
  change (set_current_q (p_next_state hustle_intro) (loaded sender it)) with u0.
  change (probe_outcomes (game_data_get (p_next_state hustle_intro)))
    with (Found (match p_outcomes hustle_q1 with Some tb => tb | None => [] end)).
  cbv beta iota.
  destruct (dict_get (match p_outcomes hustle_q1 with
                      | Some tb => tb | None => [] end) text)
    as [o |] eqn:Ho.
  2:{ destruct (is_choice_cases text Hc) as [-> | [-> | ->]]; discriminate Ho. }
  destruct (apply_outcome_and_get_message o u0) as [[r1 u1] |] eqn:Happ;
    [| discriminate].
  intros Hnext.
  rewrite (question_turn_choice sender text u0 u1 u' w1 _ hustle_q1 _ o r1 r
             eq_refl eq_refl eq_refl Hc Ho Happ Hnext).
  simpl snd. rewrite Hph. unfold w1, sent. simpl.
  now rewrite insert_insert_eq.
Qed.

Lemma intro_choice_as_q1_witness :
  snd (inbound_sms_handler (sms "+254700000000" "1")
         (world_of (player 0 "hustle_intro")))
  = snd (inbound_sms_handler (sms "+254700000000" "1")
           (mkWorld
              (Some (<[db_key "+254700000000" :=
                         item_to_save
                           (set_current_q (Some "hustle_q1")
                              (loaded "+254700000000"
                                 (item_to_save (player 0 "hustle_intro"))))]>
                       (table_of (player 0 "hustle_intro"))))
              (sms_service (world_of (player 0 "hustle_intro")))
              (io_log (world_of (player 0 "hustle_intro"))))).
Proof.
  assert (Hfound : table_of (player 0 "hustle_intro") !! db_key "+254700000000"
                   = Some (item_to_save (player 0 "hustle_intro")))
    by (vm_compute; reflexivity).
  apply (intro_choice_as_q1 (world_of (player 0 "hustle_intro"))
           (table_of (player 0 "hustle_intro")) "+254700000000" "1" "1"
           (item_to_save (player 0 "hustle_intro")) eq_refl Hfound);
    first [reflexivity | discriminate].
Defined.

(** ** Normalisation of the text *)

Lemma is_space_upper_char (c : ascii) : is_space (upper_char c) = is_space c.
Proof. destruct c as [[] [] [] [] [] [] [] []]; reflexivity. Qed.

Lemma upper_char_idem (c : ascii) : upper_char (upper_char c) = upper_char c.
Proof. destruct c as [[] [] [] [] [] [] [] []]; reflexivity. Qed.

Lemma upper_idem (s : string) : upper (upper s) = upper s.
Proof.
  induction s as [| c s IH]; [reflexivity |].
  unfold upper in *. simpl. now rewrite upper_char_idem, IH.
Qed.

Lemma lstrip_upper (s : string) : lstrip (upper s) = upper (lstrip s).
Proof.
  induction s as [| c s IH]; [reflexivity |].
  unfold upper in *. simpl. rewrite is_space_upper_char.
  destruct (is_space c); [exact IH | reflexivity].
Qed.

Lemma rstrip_upper (s : string) : rstrip (upper s) = upper (rstrip s).
Proof.
  induction s as [| c s IH]; [reflexivity |].
  unfold upper in *. simpl. rewrite IH, is_space_upper_char.
  destruct (rstrip s); simpl; [| reflexivity].
  now destruct (is_space c).
Qed.

Lemma rstrip_idem (s : string) : rstrip (rstrip s) = rstrip s.
Proof.
  induction s as [| c s IH]; [reflexivity |]. simpl.
  destruct (rstrip s) as [| d r] eqn:Hr.
  - destruct (is_space c) eqn:Hc; [reflexivity |]. simpl. now rewrite Hc.
  - change (rstrip (String c (String d r)))
      with (match rstrip (String d r) with
            | EmptyString =>
                if is_space c then EmptyString else String c EmptyString
            | x => String c x
            end).
    now rewrite IH.
Qed.

Lemma lstrip_rstrip_lstrip (s : string) :
  lstrip (rstrip (lstrip s)) = rstrip (lstrip s).
Proof.
  destruct (lstrip_head s) as [-> | (c & r & -> & Hc)]; [reflexivity |].
  simpl. destruct (rstrip r); rewrite ?Hc; simpl; now rewrite Hc.
Qed.

Lemma strip_idem (s : string) : strip (strip s) = strip s.
Proof.
  unfold strip. now rewrite lstrip_rstrip_lstrip, rstrip_idem.
Qed.

Lemma normalise_idem (raw : string) :
  upper (strip (upper (strip raw))) = upper (strip raw).
Proof.
  unfold strip at 1. rewrite lstrip_upper, rstrip_upper, upper_idem.
  fold (strip (strip raw)). now rewrite strip_idem.
Qed.

(** X17. The handler reads the text only through its trimmed, upper-cased
    form, and that form is stable: a message and its normalised text are
    handled alike, whatever the world. *)
Theorem handler_normalised (from : option string) (raw : string) (w : world) :
  inbound_sms_handler (mkSms from (Some raw)) w
    = inbound_sms_handler (mkSms from (Some (upper (strip raw)))) w.
Proof.
  unfold inbound_sms_handler. simpl. now rewrite normalise_idem.
Qed.
